(** * The P4Runtime controller of [labs/three_routers_three_hosts/shared/controller.py]

    A shallow embedding of [controller.py]: the Python string primitives the
    install loop uses, the table-entry descriptions handed to
    [buildTableEntry], the calls on the switch connection as a trace of
    events, and [main] with its [try]/[except] structure as a computation in
    a state-and-exception monad. *)

From Stdlib Require Import ZArith String Ascii Lia.
From Stdlib Require Import DecimalString.
From stdpp Require Import base option decidable numbers list strings.

Local Open Scope string_scope.
Local Open Scope Z_scope.

(** ** Python built-ins used by the source *)

Module Py.

(** The line terminator ["\n"]. *)
Definition nl : ascii := "010"%char.

(** [s.split(sep)] for a one-character separator: every occurrence of
    [sep] cuts, empty pieces are kept, the result is never empty. *)
Fixpoint split (sep : ascii) (s : string) : list string :=
  match s with
  | EmptyString => [EmptyString]
  | String c r =>
      if Ascii.eqb c sep then EmptyString :: split sep r
      else match split sep r with
           | h :: t => String c h :: t
           | [] => [String c EmptyString]
           end
  end.

Fixpoint lstrip (p : ascii -> bool) (s : string) : string :=
  match s with
  | EmptyString => EmptyString
  | String c r => if p c then lstrip p r else s
  end.

Fixpoint rstrip (p : ascii -> bool) (s : string) : string :=
  match s with
  | EmptyString => EmptyString
  | String c r =>
      match rstrip p r with
      | EmptyString => if p c then EmptyString else String c EmptyString
      | r' => String c r'
      end
  end.

(** [s.strip(chars)]: leading and trailing characters of the set go. *)
Definition strip (p : ascii -> bool) (s : string) : string :=
  rstrip p (lstrip p s).

Definition is_nl (c : ascii) : bool := Ascii.eqb c nl.

(** A Python string is kept as its UTF-8 encoding. [code_points] decodes
    it; [None] on bytes that are not UTF-8, which a Python string never
    holds. *)
Definition continuation (c : ascii) : option N :=
  let n := N_of_ascii c in
  if (N.leb 128 n && N.ltb n 192)%bool then Some (n - 128)%N else None.

Fixpoint code_points (s : string) : option (list N) :=
  match s with
  | EmptyString => Some nil
  | String b0 r0 =>
      let n0 := N_of_ascii b0 in
      if N.ltb n0 128 then cons n0 <$> code_points r0
      else if (N.leb 194 n0 && N.ltb n0 224)%bool then
        match r0 with
        | String b1 r1 =>
            match continuation b1 with
            | Some n1 => cons ((n0 - 192) * 64 + n1)%N <$> code_points r1
            | None => None
            end
        | _ => None
        end
      else if (N.leb 224 n0 && N.ltb n0 240)%bool then
        match r0 with
        | String b1 (String b2 r2) =>
            match continuation b1, continuation b2 with
            | Some n1, Some n2 =>
                cons (((n0 - 224) * 64 + n1) * 64 + n2)%N <$> code_points r2
            | _, _ => None
            end
        | _ => None
        end
      else if (N.leb 240 n0 && N.ltb n0 245)%bool then
        match r0 with
        | String b1 (String b2 (String b3 r3)) =>
            match continuation b1, continuation b2, continuation b3 with
            | Some n1, Some n2, Some n3 =>
                cons ((((n0 - 240) * 64 + n1) * 64 + n2) * 64 + n3)%N
                  <$> code_points r3
            | _, _, _ => None
            end
        | _ => None
        end
      else None
  end.

(** White space outside ASCII ([str.isspace], Unicode 14.0 as in
    CPython 3.11). *)
Definition unicode_space (n : N) : bool :=
  (N.eqb n 0x85 || N.eqb n 0xa0 || N.eqb n 0x1680
   || (N.leb 0x2000 n && N.leb n 0x200a)
   || N.eqb n 0x2028 || N.eqb n 0x2029 || N.eqb n 0x202f
   || N.eqb n 0x205f || N.eqb n 0x3000)%bool.

(** The zeros of the decimal digits outside ASCII (Unicode 14.0); the
    digits 1 to 9 of each script follow its zero. *)
Definition decimal_zeros : list N :=
  (0x660 :: 0x6f0 :: 0x7c0 :: 0x966 :: 0x9e6 :: 0xa66 :: 0xae6 :: 0xb66
   :: 0xbe6 :: 0xc66 :: 0xce6 :: 0xd66 :: 0xde6 :: 0xe50 :: 0xed0 :: 0xf20
   :: 0x1040 :: 0x1090 :: 0x17e0 :: 0x1810 :: 0x1946 :: 0x19d0 :: 0x1a80 :: 0x1a90
   :: 0x1b50 :: 0x1bb0 :: 0x1c40 :: 0x1c50 :: 0xa620 :: 0xa8d0 :: 0xa900 :: 0xa9d0
   :: 0xa9f0 :: 0xaa50 :: 0xabf0 :: 0xff10 :: 0x104a0 :: 0x10d30 :: 0x11066 :: 0x110f0
   :: 0x11136 :: 0x111d0 :: 0x112f0 :: 0x11450 :: 0x114d0 :: 0x11650 :: 0x116c0 :: 0x11730
   :: 0x118e0 :: 0x11950 :: 0x11c50 :: 0x11d50 :: 0x11da0 :: 0x16a60 :: 0x16ac0 :: 0x16b50
   :: 0x1d7ce :: 0x1d7d8 :: 0x1d7e2 :: 0x1d7ec :: 0x1d7f6 :: 0x1e140 :: 0x1e2f0 :: 0x1e950
   :: 0x1fbf0
   :: nil)%N.

Fixpoint decimal_in (zeros : list N) (n : N) : option N :=
  match zeros with
  | nil => None
  | cons z r =>
      if (N.leb z n && N.ltb n (z + 10))%bool then Some (n - z)%N
      else decimal_in r n
  end.

(** What [int] makes of a character before it reads the number: ASCII
    stays, other white space becomes a blank, another decimal digit becomes
    the ASCII digit of its value, anything else cannot be part of a
    number. *)
Definition to_ascii (n : N) : ascii :=
  if N.ltb n 127 then ascii_of_N n
  else if unicode_space n then " "%char
  else match decimal_in decimal_zeros n with
       | Some d => ascii_of_N (48 + d)
       | None => "?"%char
       end.

(** ASCII white space that [int] skips around the number. *)
Definition is_space (c : ascii) : bool :=
  let n := N_of_ascii c in
  (N.eqb n 32 || (N.leb 9 n && N.leb n 13))%bool.

Definition is_digit (c : ascii) : bool :=
  let n := N_of_ascii c in (N.leb 48 n && N.leb n 57)%bool.

Definition digit_val (c : ascii) : Z := Z.of_N (N_of_ascii c) - 48.

(** Digits after the first one; a single ["_"] may sit between two
    digits. [us] tells that the previous character was an underscore. *)
Fixpoint digits (s : string) (acc : Z) (us : bool) : option Z :=
  match s with
  | EmptyString => if us then None else Some acc
  | String c r =>
      if is_digit c then digits r (10 * acc + digit_val c) false
      else if Ascii.eqb c "_"%char
           then (if us then None else digits r acc true)
           else None
  end.

Fixpoint count_digits (s : string) : N :=
  match s with
  | EmptyString => 0%N
  | String c r => ((if is_digit c then 1 else 0) + count_digits r)%N
  end.

(** The default of [sys.get_int_max_str_digits()]: a number with more
    digits is refused. *)
Definition int_max_str_digits : N := 4300.

Definition unsigned (s : string) : option Z :=
  match s with
  | EmptyString => None
  | String c r =>
      if is_digit c
      then (if N.ltb int_max_str_digits (count_digits s) then None
            else digits r (digit_val c) false)
      else None
  end.

(** [int(s)] on a string, base ten: [None] is Python's [ValueError]. *)
Definition int (s : string) : option Z :=
  match code_points s with
  | None => None
  | Some cps =>
      match strip is_space (string_of_list_ascii (List.map to_ascii cps)) with
      | EmptyString => None
      | String c r =>
          if Ascii.eqb c "-"%char then Z.opp <$> unsigned r
          else if Ascii.eqb c "+"%char then unsigned r
          else unsigned (String c r)
      end
  end.

(** [str(n)] for an integer. *)
Definition str (z : Z) : string := NilZero.string_of_int (Z.to_int z).

(** Iterating a text file: the lines, each with its terminator (the last
    one has none when the text does not end with one). The text is the one
    Python hands over in text mode, line ends already translated to
    ["\n"]. *)
Fixpoint readlines (s : string) : list string :=
  match s with
  | EmptyString => []
  | String c r =>
      if Ascii.eqb c nl then String c EmptyString :: readlines r
      else match readlines r with
           | [] => [String c EmptyString]
           | h :: t => String c h :: t
           end
  end.

(** [b.hex()] on bytes: two lower-case hexadecimal digits per byte. *)
Definition hex_digit (n : N) : ascii :=
  if N.ltb n 10 then ascii_of_N (48 + n) else ascii_of_N (87 + n).

Definition hex_byte (b : Byte.byte) : string :=
  let n := Byte.to_N b in
  String (hex_digit (N.div n 16)) (String (hex_digit (N.modulo n 16)) EmptyString).

Definition hex (bs : list Byte.byte) : string :=
  fold_right (fun b acc => hex_byte b ++ acc) EmptyString bs.

(** ["c" * n] *)
Fixpoint repeat_char (c : ascii) (n : nat) : string :=
  match n with
  | O => EmptyString
  | S k => String c (repeat_char c k)
  end.

End Py.

Example split_record :
  Py.split ","%char "10.0.1.0/24,10.0.1.1,08:00:00:00:01:11,08:00:00:00:01:00,1"
  = ["10.0.1.0/24"; "10.0.1.1"; "08:00:00:00:01:11"; "08:00:00:00:01:00"; "1"].
Proof. reflexivity. Qed.

Example split_keeps_empty : Py.split ","%char ",a," = [""; "a"; ""].
Proof. reflexivity. Qed.

Example int_examples :
  Py.int "24" = Some 24 /\ Py.int " -7 " = Some (-7) /\ Py.int "1_0" = Some 10
  /\ Py.int "" = None /\ Py.int "2x" = None /\ Py.int "1__0" = None.
Proof. repeat split; reflexivity. Qed.

(** Outside ASCII: the Arabic-Indic digit three (U+0663) is a digit and the
    no-break space (U+00A0) is white space, the control character 0x1c is
    not, and a number of 4301 digits is refused. *)
Example int_unicode_examples :
  Py.int (String "217" (String "163" EmptyString)) = Some 3
  /\ Py.int (String "194" (String "160" "7")) = Some 7
  /\ Py.int (String "028" "7") = None
  /\ Py.int (Py.repeat_char "1" 4301) = None.
Proof. vm_compute. repeat split; reflexivity. Qed.

Example str_examples : Py.str 24 = "24" /\ Py.str 0 = "0" /\ Py.str (-3) = "-3".
Proof. repeat split; reflexivity. Qed.

Example hex_example : Py.hex [Byte.x0a; Byte.x00; Byte.x01; Byte.xff] = "0a0001ff".
Proof. reflexivity. Qed.

Example readlines_example :
  Py.readlines (String "a" (String Py.nl (String "b" EmptyString)))
  = [String "a" (String Py.nl EmptyString); "b"].
Proof. reflexivity. Qed.

(** ** Data model *)

(** Module constants of the source. *)
Definition ENABLED_PORT : list Z := [1; 2; 3; 4].
Definition TIMEOUT_SEC : Z := 15.

(** Exceptions the program can meet. [main] tells three classes apart:
    [KeyboardInterrupt], [grpc.RpcError] and everything else. *)
Inductive exn : Type :=
| KeyboardInterrupt
| RpcError (detail : string)
| ValueError
| IndexError
| SystemExit (code : Z)
| OtherException (name : string).

Inductive res (A : Type) : Type :=
| Ret (a : A)
| Raise (e : exn).
Arguments Ret {A} a.
Arguments Raise {A} e.

(** Python values that appear as match-field values and action parameters:
    a string, an integer, or a list of those ([[prefix, prefix_len]]). *)
Inductive pyatom : Type :=
| PStr (s : string)
| PInt (z : Z).

Inductive pyval : Type :=
| Atom (a : pyatom)
| PList (l : list pyatom).

(** The keyword arguments of one [buildTableEntry] call. The dictionaries
    are kept as association lists in the order they are written. *)
Record Descriptor : Type := mkDescriptor {
  table_name : string;
  match_fields : list (string * pyval);
  action_name : string;
  action_params : list (string * pyval)
}.

#[global] Instance exn_eq_dec : EqDecision exn.
Proof. solve_decision. Defined.
#[global] Instance pyatom_eq_dec : EqDecision pyatom.
Proof. solve_decision. Defined.
#[global] Instance pyval_eq_dec : EqDecision pyval.
Proof. solve_decision. Defined.
#[global] Instance Descriptor_eq_dec : EqDecision Descriptor.
Proof. solve_decision. Defined.

(** One line of the routing-info file after lines 73-79 of the source. *)
Record RoutingRecord : Type := mkRecord {
  prefix : string;
  prefix_len : Z;
  next_hop_ip : string;
  next_hop_mac : string;
  egress_mac : string;
  egress_port : Z
}.

(** Modelled from the spec: the wire messages read back from the switch
    (the P4Runtime protobuf types) are not under src/. Following the
    WireEntry of the data model, a match is a field id with either an exact
    value or a prefix value with its bit length, and an action is an id with
    a sequence of (param id, bytes). A protobuf accessor on a member of a
    oneof that is not the one set yields the default message, whose bytes
    field is empty: that is what [exact_value] does on a prefix match. *)
Inductive FieldMatchType : Type :=
| Exact (value : list Byte.byte)
| LPM (value : list Byte.byte) (plen : Z).

Record FieldMatch : Type := mkFieldMatch {
  field_id : Z;
  field_match_type : FieldMatchType
}.

Definition exact_value (m : FieldMatch) : list Byte.byte :=
  match field_match_type m with
  | Exact v => v
  | LPM _ _ => []
  end.

(** The bytes the match carries on the wire, whatever its kind. *)
Definition wire_value (m : FieldMatch) : list Byte.byte :=
  match field_match_type m with
  | Exact v => v
  | LPM v _ => v
  end.

Record Param : Type := mkParam {
  param_id : Z;
  param_value : list Byte.byte
}.

Record TableEntry : Type := mkTableEntry {
  te_table_id : Z;
  te_match : list FieldMatch;
  te_action_id : Z;
  te_params : list Param
}.

(** A read response carries entities, each one a table entry. *)
Record ReadResponse : Type := mkResponse { entities : list TableEntry }.

(** ** Observable events: calls on the collaborators and console output *)

Inductive event : Type :=
| EvP4InfoHelper (path : string)
| EvBmv2SwitchConnection (name address : string) (device_id : Z)
| EvMasterArbitrationUpdate
| EvSetForwardingPipelineConfig (bmv2_json_file_path : string)
| EvOpen (path : string)
| EvBuildTableEntry (d : Descriptor)
| EvWriteTableEntry (d : Descriptor) (outcome : option exn)
| EvGetTablesId (name : string)
| EvReadTableEntries (table_id : Z)
| EvPrint (text : string)
| EvPrintHelp
| EvPrintGrpcError (e : exn)
| EvShutdown.

#[global] Instance event_eq_dec : EqDecision event.
Proof. solve_decision. Defined.

(** The collaborators, as oracles: what each call answers. [None] means the
    call returns, [Some e] that it raises [e]. A write is answered knowing
    the events so far, so that the switch may refuse a duplicate or lose
    mastership half-way. *)
Record World : Type := mkWorld {
  path_exists : string -> bool;
  P4InfoHelper_r : string -> option exn;
  Bmv2SwitchConnection_r : option exn;
  MasterArbitrationUpdate_r : option exn;
  SetForwardingPipelineConfig_r : option exn;
  open_r : string -> res string;
  buildTableEntry_r : Descriptor -> option exn;
  WriteTableEntry_r : list event -> Descriptor -> option exn;
  get_tables_id_r : string -> res Z;
  ReadTableEntries_r : list event -> Z -> list ReadResponse * option exn;
  get_match_field_name_r : string -> Z -> res string;
  get_actions_name_r : Z -> res string;
  get_action_param_name_r : string -> Z -> res string
}.

(** ** The state-and-exception monad of the embedding *)

Record state : Type := mkState {
  out : list event;
  connections : list string
}.

Definition M (A : Type) : Type := state -> res A * state.

Definition ret {A} (a : A) : M A := fun s => (Ret a, s).
Definition raise {A} (e : exn) : M A := fun s => (Raise e, s).

Definition bind {A B} (m : M A) (k : A -> M B) : M B :=
  fun s => match m s with
           | (Ret a, s') => k a s'
           | (Raise e, s') => (Raise e, s')
           end.

Declare Scope py_scope.
Delimit Scope py_scope with py.
Notation "x <- m ;; k" := (bind m (fun x => k))
  (at level 100, m at next level, right associativity) : py_scope.
Notation "m ;;; k" := (bind m (fun _ => k))
  (at level 100, right associativity) : py_scope.
Local Open Scope py_scope.

Definition lift {A} (r : res A) : M A := fun s => (r, s).

Definition emit (e : event) : M unit :=
  fun s => (Ret tt, {| out := out s ++ [e]; connections := connections s |}).

Definition history : M (list event) := fun s => (Ret (out s), s).

Definition check (r : option exn) : M unit :=
  match r with
  | None => ret tt
  | Some e => raise e
  end.

(** [try: body except ...: handler]: [handler e] is [None] when no clause
    matches [e], which then goes on propagating. *)
Definition try_except (body : M unit) (handler : exn -> option (M unit)) : M unit :=
  fun s => match body s with
           | (Ret a, s') => (Ret a, s')
           | (Raise e, s') =>
               match handler e with
               | Some h => h s'
               | None => (Raise e, s')
               end
           end.

(** [for x in l: f x] *)
Fixpoint for_each {A} (f : A -> M unit) (l : list A) : M unit :=
  match l with
  | [] => ret tt
  | x :: r => f x ;;; for_each f r
  end.

(** [print(text, end=e)] and the plain [print(text)]. *)
Definition print_end (text e : string) : M unit := emit (EvPrint (text ++ e)).
Definition print (text : string) : M unit :=
  print_end text (String Py.nl EmptyString).

(** ** The calls on the collaborators *)

Section Controller.

Variable w : World.

(** [helper.P4InfoHelper(p4info_file_path)] *)
Definition P4InfoHelper (p4info_file_path : string) : M unit :=
  emit (EvP4InfoHelper p4info_file_path) ;;;
  check (P4InfoHelper_r w p4info_file_path).

(** [bmv2.Bmv2SwitchConnection(name, address, device_id)]: a connection
    that was set up is entered in the module-wide list of connections. *)
Definition Bmv2SwitchConnection (name address : string) (device_id : Z) : M unit :=
  emit (EvBmv2SwitchConnection name address device_id) ;;;
  check (Bmv2SwitchConnection_r w) ;;;
  fun s => (Ret tt, {| out := out s; connections := connections s ++ [name] |}).

Definition MasterArbitrationUpdate : M unit :=
  emit EvMasterArbitrationUpdate ;;; check (MasterArbitrationUpdate_r w).

Definition SetForwardingPipelineConfig (bmv2_json_file_path : string) : M unit :=
  emit (EvSetForwardingPipelineConfig bmv2_json_file_path) ;;;
  check (SetForwardingPipelineConfig_r w).

(** [p4info_helper.buildTableEntry(...)]: a function of its arguments;
    the entry it returns is represented by those arguments. *)
Definition buildTableEntry (d : Descriptor) : M Descriptor :=
  emit (EvBuildTableEntry d) ;;;
  check (buildTableEntry_r w d) ;;;
  ret d.

(** [s1.WriteTableEntry(entry)] *)
Definition WriteTableEntry (d : Descriptor) : M unit :=
  h <- history ;;
  let r := WriteTableEntry_r w h d in
  emit (EvWriteTableEntry d r) ;;;
  check r.

Definition get_tables_id (name : string) : M Z :=
  emit (EvGetTablesId name) ;;; lift (get_tables_id_r w name).

(** Modelled from the spec: [ShutdownAllSwitchConnections] belongs to
    [utils.p4runtime_lib.switch], which is not under src/. By section 4.1
    it releases the transport, is idempotent and is always safe to call,
    also when connect or arbitration never completed: it closes whatever
    connections are registered and never raises. *)
Definition ShutdownAllSwitchConnections : M unit :=
  fun s => (Ret tt, {| out := out s ++ [EvShutdown]; connections := [] |}).

(** [printGrpcError(e)] of [utils.p4runtime_lib.error_utils]: prints a
    diagnostic for [e]. *)
Definition printGrpcError (e : exn) : M unit := emit (EvPrintGrpcError e).

(** ** The install loop, lines 72-119 *)

Definition index (l : list string) (i : nat) : res string :=
  match l !! i with
  | Some x => Ret x
  | None => Raise IndexError
  end.

Definition to_int (s : string) : res Z :=
  match Py.int s with
  | Some z => Ret z
  | None => Raise ValueError
  end.

Definition rbind {A B} (r : res A) (k : A -> res B) : res B :=
  match r with
  | Ret a => k a
  | Raise e => Raise e
  end.

(** Lines 73-79: the fields of one line, in the order the source reads
    them. Unpacking [ip_mac_pair[0].split('/')] into two names raises
    [ValueError] unless there are exactly two pieces. *)
Definition parse_line (line : string) : res RoutingRecord :=
  let ip_mac_pair := Py.split ","%char line in
  rbind (index ip_mac_pair 0) (fun f0 =>
  match Py.split "/"%char f0 with
  | [prefix; prefix_len] =>
      rbind (index ip_mac_pair 1) (fun next_hop_ip =>
      rbind (index ip_mac_pair 2) (fun next_hop_mac =>
      rbind (index ip_mac_pair 3) (fun egress_mac =>
      rbind (index ip_mac_pair 4) (fun f4 =>
      rbind (to_int (Py.strip Py.is_nl f4)) (fun egress_port =>
      rbind (to_int prefix_len) (fun prefix_len =>
      Ret (mkRecord prefix prefix_len next_hop_ip next_hop_mac
                    egress_mac egress_port)))))))
  | _ => Raise ValueError
  end).

(** Lines 86-91. *)
Definition routing_table_entry (r : RoutingRecord) : Descriptor :=
  {| table_name := "MyIngress.ipv4_route";
     match_fields :=
       [("hdr.ipv4.dst_ipAddr", PList [PStr (prefix r); PInt (prefix_len r)])];
     action_name := "MyIngress.forward_to_next_hop";
     action_params := [("next_hop", Atom (PStr (next_hop_ip r)))] |}.

(** Lines 99-105. *)
Definition arp_table_entry (r : RoutingRecord) : Descriptor :=
  {| table_name := "MyIngress.arp_table";
     match_fields := [("meta.next_hop", Atom (PStr (next_hop_ip r)))];
     action_name := "MyIngress.change_dst_mac";
     action_params := [("dst_mac", Atom (PStr (next_hop_mac r)))] |}.

(** Lines 113-118. *)
Definition mac_table_entry (r : RoutingRecord) : Descriptor :=
  {| table_name := "MyIngress.dmac_forward";
     match_fields := [("hdr.ethernet.dest_macAddr", Atom (PStr (next_hop_mac r)))];
     action_name := "MyIngress.forward_to_port";
     action_params := [("egress_port", Atom (PInt (egress_port r)));
                       ("egress_mac", Atom (PStr (egress_mac r)))] |}.

(** The three entries of a record, in the order they are written. *)
Definition derive_entries (r : RoutingRecord) : list Descriptor :=
  [routing_table_entry r; arp_table_entry r; mac_table_entry r].

(** [print(a, b, ...)]: the arguments separated by one space. *)
Definition words (l : list string) : string := String.concat " " l.

(** The body of [for line in f], lines 73-119. *)
Definition install_line (line : string) : M unit :=
  r <- lift (parse_line line) ;;
  print (words ["Add routing table entry"; prefix r; Py.str (prefix_len r);
                next_hop_ip r]) ;;;
  e1 <- buildTableEntry (routing_table_entry r) ;;
  WriteTableEntry e1 ;;;
  print (words ["Add ARP table entry"; next_hop_ip r; next_hop_mac r]) ;;;
  e2 <- buildTableEntry (arp_table_entry r) ;;
  WriteTableEntry e2 ;;;
  print (words ["Add MAC table entry"; next_hop_mac r; Py.str (egress_port r);
                egress_mac r]) ;;;
  e3 <- buildTableEntry (mac_table_entry r) ;;
  WriteTableEntry e3.

(** Lines 71-119: open the file and run the body on each line. *)
Definition install (routing_info : string) : M unit :=
  emit (EvOpen routing_info) ;;;
  text <- lift (open_r w routing_info) ;;
  for_each install_line (Py.readlines text).

(** ** [print_table_entries], lines 33-61 *)

Definition dashes : string := Py.repeat_char "-"%char 64.

(** Lines 43-50: one match of an entry. *)
Definition print_match (table_name : string) (m : FieldMatch) : M unit :=
  match_name <- lift (get_match_field_name_r w table_name (field_id m)) ;;
  print_end (match_name ++ ":" ++ Py.hex (exact_value m)) " ".

(** Lines 55-59: one action parameter. *)
Definition print_param (action_name : string) (p : Param) : M unit :=
  param_name <- lift (get_action_param_name_r w action_name (param_id p)) ;;
  print_end (param_name ++ ":" ++ Py.hex (param_value p)) " ".

(** Lines 42-60: one entity of a response. *)
Definition print_entity (table_name : string) (te : TableEntry) : M unit :=
  for_each (print_match table_name) (te_match te) ;;;
  action_name <- lift (get_actions_name_r w (te_action_id te)) ;;
  print_end ("| " ++ action_name ++ " |") " " ;;;
  for_each (print_param action_name) (te_params te) ;;;
  print "".

Definition print_table_entries (table_name : string) : M unit :=
  print dashes ;;;
  print (words ["Table Entries of"; table_name]) ;;;
  print "match_field: value | action | action_param: value" ;;;
  table_id <- get_tables_id table_name ;;
  h <- history ;;
  emit (EvReadTableEntries table_id) ;;;
  let '(responses, failure) := ReadTableEntries_r w h table_id in
  for_each (fun response => for_each (print_entity table_name) (entities response))
           responses ;;;
  check failure ;;;
  print dashes.

(** ** [main], lines 18-130 *)

(** The body of the [try] block, lines 26-123. *)
Definition try_body (bmv2_file_path routing_info : string) : M unit :=
  Bmv2SwitchConnection "s1" "127.0.0.1:50051" 0 ;;;
  MasterArbitrationUpdate ;;;
  SetForwardingPipelineConfig bmv2_file_path ;;;
  print ("Installed P4 Program using SetForwardingPipelineConfig on " ++ "s1") ;;;
  install routing_info ;;;
  print_table_entries "MyIngress.ipv4_route" ;;;
  print_table_entries "MyIngress.arp_table_entry" ;;;
  print_table_entries "MyIngress.mac_table_entry".

(** The two [except] clauses, lines 125-128. *)
Definition handlers (e : exn) : option (M unit) :=
  match e with
  | KeyboardInterrupt => Some (print " Shutting down.")
  | RpcError _ => Some (printGrpcError e)
  | _ => None
  end.

Definition main (p4info_file_path bmv2_file_path routing_info : string) : M unit :=
  P4InfoHelper p4info_file_path ;;;
  try_except (try_body bmv2_file_path routing_info) handlers ;;;
  ShutdownAllSwitchConnections.

(** ** The script, lines 132-156 *)

Record Args : Type := mkArgs {
  p4info : string;
  bmv2_json : string;
  routing_info_arg : string
}.

Definition not_found (what path : string) : string :=
  String Py.nl (what ++ " file not found: " ++ path)
  ++ String Py.nl "Have you run 'make'?".

(** [parser.print_help(); print(...); parser.exit(1)] *)
Definition usage_exit (message : string) : M unit :=
  emit EvPrintHelp ;;; print message ;;; raise (SystemExit 1).

Definition script (args : Args) : M unit :=
  (if path_exists w (p4info args) then ret tt
   else usage_exit (not_found "p4info" (p4info args))) ;;;
  (if path_exists w (bmv2_json args) then ret tt
   else usage_exit (not_found "BMv2 JSON" (bmv2_json args))) ;;;
  (if path_exists w (routing_info_arg args) then ret tt
   else usage_exit (not_found "BMv2 JSON" (bmv2_json args))) ;;;
  main (p4info args) (bmv2_json args) (routing_info_arg args).

End Controller.

(** How the process ends: leaving the script normally is exit code 0,
    [SystemExit n] is exit code [n], any other exception that reaches the
    top is a traceback. *)
Inductive termination : Type :=
| ExitCode (code : Z)
| Traceback (e : exn).

Definition terminate (r : res unit) : termination :=
  match r with
  | Ret _ => ExitCode 0
  | Raise (SystemExit n) => ExitCode n
  | Raise e => Traceback e
  end.

Definition init : state := {| out := []; connections := [] |}.

(** A run from the start of the process. *)
Definition run {A} (m : M A) : res A * list event :=
  let '(r, s) := m init in (r, out s).

Definition result {A} (m : M A) : res A := fst (run m).
Definition trace {A} (m : M A) : list event := snd (run m).

(** ** Reading a trace *)

Local Open Scope list_scope.

(** The entries handed to [WriteTableEntry], in call order. *)
Definition written (e : event) : option Descriptor :=
  match e with
  | EvWriteTableEntry d _ => Some d
  | _ => None
  end.
Definition writes (tr : list event) : list Descriptor := omap written tr.

(** The entries whose write returned without raising. *)
Definition accepted (e : event) : option Descriptor :=
  match e with
  | EvWriteTableEntry d None => Some d
  | _ => None
  end.
Definition installed (tr : list event) : list Descriptor := omap accepted tr.

(** The table names handed to the dump (its [get_tables_id] lookup). *)
Definition dump_name (e : event) : option string :=
  match e with
  | EvGetTablesId n => Some n
  | _ => None
  end.
Definition dumped (tr : list event) : list string := omap dump_name tr.

(** What reaches the console through [print]. *)
Definition printed (e : event) : option string :=
  match e with
  | EvPrint t => Some t
  | _ => None
  end.
Definition join (l : list string) : string := fold_right String.append EmptyString l.
Definition stdout (tr : list event) : string := join (omap printed tr).

(** The descriptions handed to [buildTableEntry], in call order. *)
Definition built (e : event) : option Descriptor :=
  match e with
  | EvBuildTableEntry d => Some d
  | _ => None
  end.
Definition builds (tr : list event) : list Descriptor := omap built tr.

Definition is_write (e : event) : bool :=
  match e with EvWriteTableEntry _ _ => true | _ => false end.

(** The read-back stage: table-id lookup and table read. *)
Definition is_readback (e : event) : bool :=
  match e with EvGetTablesId _ | EvReadTableEntries _ => true | _ => false end.

(** Operations that need mastership: config push, table write, table read. *)
Definition session_op (e : event) : bool :=
  match e with
  | EvSetForwardingPipelineConfig _ | EvWriteTableEntry _ _
  | EvReadTableEntries _ => true
  | _ => false
  end.

(** The entries the install loop is to write for a list of lines: the
    three entries of each line, up to the first line that does not parse. *)
Fixpoint planned (lines : list string) : list Descriptor :=
  match lines with
  | [] => []
  | l :: rest =>
      match parse_line l with
      | Ret r => derive_entries r ++ planned rest
      | Raise _ => []
      end
  end.


(** ** A small program logic over traces *)

(** [post m s Q]: run from [s], [m] appends some events [evs] to the trace
    and [Q] holds of its result and of [evs]. *)
Definition post {A} (m : M A) (s : state) (Q : res A -> list event -> Prop) : Prop :=
  exists evs, out (m s).2 = out s ++ evs /\ Q (m s).1 evs.

Lemma post_conseq {A} (m : M A) s (Q Q' : res A -> list event -> Prop) :
  post m s Q -> (forall r evs, Q r evs -> Q' r evs) -> post m s Q'.
Proof. intros (evs & E & H) HQ. exists evs. auto. Qed.

Lemma post_ret {A} (a : A) s Q : Q (Ret a) [] -> post (ret a) s Q.
Proof. intros H. exists []. simpl. rewrite app_nil_r. auto. Qed.

Lemma post_raise {A} e s (Q : res A -> list event -> Prop) :
  Q (Raise e) [] -> post (raise e) s Q.
Proof. intros H. exists []. simpl. rewrite app_nil_r. auto. Qed.

Lemma post_lift {A} (r : res A) s Q : Q r [] -> post (lift r) s Q.
Proof. intros H. exists []. simpl. rewrite app_nil_r. auto. Qed.

Lemma post_history s Q : Q (Ret (out s)) [] -> post history s Q.
Proof. intros H. exists []. simpl. rewrite app_nil_r. auto. Qed.

Lemma post_emit e s Q : Q (Ret tt) [e] -> post (emit e) s Q.
Proof. intros H. exists [e]. simpl. auto. Qed.

Lemma post_check r s Q :
  match r with None => Q (Ret tt) [] | Some e => Q (Raise e) [] end ->
  post (check r) s Q.
Proof. destruct r; intros H; [apply post_raise | apply post_ret]; exact H. Qed.

Lemma post_bind {A B} (m : M A) (k : A -> M B) s Q :
  post m s (fun r evs =>
    match r with
    | Ret a => forall s', out s' = out s ++ evs ->
                          post (k a) s' (fun r' evs' => Q r' (evs ++ evs'))
    | Raise e => Q (Raise e) evs
    end) ->
  post (bind m k) s Q.
Proof.
  intros (evs & E & H). unfold post, bind.
  destruct (m s) as [[a | e] s1]; simpl in *.
  - destruct (H s1 E) as (evs' & E' & H'). exists (evs ++ evs').
    rewrite E', E, app_assoc. auto.
  - exists evs. auto.
Qed.

Lemma post_try_except body handler s Q :
  post body s (fun r evs =>
    match r with
    | Ret a => Q (Ret a) evs
    | Raise e =>
        match handler e with
        | Some h => forall s', out s' = out s ++ evs ->
                               post h s' (fun r' evs' => Q r' (evs ++ evs'))
        | None => Q (Raise e) evs
        end
    end) ->
  post (try_except body handler) s Q.
Proof.
  intros (evs & E & H). unfold post, try_except.
  destruct (body s) as [[a | e] s1]; simpl in *.
  - exists evs. auto.
  - destruct (handler e) as [h |].
    + destruct (H s1 E) as (evs' & E' & H'). exists (evs ++ evs').
      rewrite E', E, app_assoc. auto.
    + exists evs. auto.
Qed.

(** [only P m]: whatever the start state and the result, [m] emits events
    of kind [P] only. *)
Definition only (P : event -> bool) {A} (m : M A) : Prop :=
  forall s, post m s (fun _ evs => Forall (fun e => P e = true) evs).

Lemma only_ret P {A} (a : A) : only P (ret a).
Proof. intros s. apply post_ret. constructor. Qed.

Lemma only_raise P {A} e : only P (@raise A e).
Proof. intros s. apply post_raise. constructor. Qed.

Lemma only_lift P {A} (r : res A) : only P (lift r).
Proof. intros s. apply post_lift. constructor. Qed.

Lemma only_history P : only P history.
Proof. intros s. apply post_history. constructor. Qed.

Lemma only_check P r : only P (check r).
Proof. intros s. apply post_check. destruct r; constructor. Qed.

Lemma only_emit (P : event -> bool) e : P e = true -> only P (emit e).
Proof. intros H s. apply post_emit. repeat constructor. exact H. Qed.

Lemma only_bind P {A B} (m : M A) (k : A -> M B) :
  only P m -> (forall a, only P (k a)) -> only P (bind m k).
Proof.
  intros Hm Hk s. apply post_bind. eapply post_conseq; [apply Hm |].
  intros [a | e] evs H; [| exact H].
  intros s' _. eapply post_conseq; [apply Hk |].
  intros r evs' H'. simpl in *. apply Forall_app. auto.
Qed.

Lemma only_for_each P {A} (f : A -> M unit) l :
  (forall x, only P (f x)) -> only P (for_each f l).
Proof.
  intros Hf. induction l as [| x l IH]; simpl.
  - apply only_ret.
  - apply only_bind; auto.
Qed.

Lemma only_try_except P body handler :
  only P body -> (forall e h, handler e = Some h -> only P h) ->
  only P (try_except body handler).
Proof.
  intros Hb Hh s. apply post_try_except. eapply post_conseq; [apply Hb |].
  intros [a | e] evs H; [exact H |].
  destruct (handler e) as [h |] eqn:E; [| exact H].
  intros s' _. eapply post_conseq; [apply (Hh e h E) |].
  intros r evs' H'. simpl in *. apply Forall_app. auto.
Qed.

Lemma only_print_end P t e : P (EvPrint (t ++ e)) = true -> only P (print_end t e).
Proof. apply only_emit. Qed.

Lemma only_weaken (P P' : event -> bool) {A} (m : M A) :
  (forall e, P e = true -> P' e = true) -> only P m -> only P' m.
Proof.
  intros HP H s. eapply post_conseq; [apply H |].
  intros r evs HF. simpl in *. eapply Forall_impl; eauto.
Qed.

(** ** Which events each part of the program can emit *)

Definition any_event (e : event) : bool := true.
Definition not_write (e : event) : bool := negb (is_write e).
Definition not_readback (e : event) : bool := negb (is_readback e).

Ltac only_step :=
  match goal with
  | |- only _ (bind _ _) => apply only_bind; [| intros ?]
  | |- only _ (ret _) => apply only_ret
  | |- only _ (raise _) => apply only_raise
  | |- only _ (lift _) => apply only_lift
  | |- only _ history => apply only_history
  | |- only _ (check _) => apply only_check
  | |- only _ (emit _) => apply only_emit; reflexivity
  | |- only _ (print_end _ _) => apply only_emit; reflexivity
  | |- only _ (print _) => apply only_emit; reflexivity
  | |- only _ (for_each _ _) => apply only_for_each; intros ?
  | |- only _ (let '(_, _) := ?p in _) => destruct p
  | |- only _ (if ?b then _ else _) => destruct b
  end.

Ltac only_tac := repeat only_step.

Section Footprints.

Variable w : World.

Lemma only_print_table_entries P name :
  (forall e, is_write e = false -> P e = true) ->
  only P (print_table_entries w name).
Proof.
  intros HP. apply (only_weaken not_write).
  { intros e H. apply HP. unfold not_write in H. destruct (is_write e); done. }
  unfold print_table_entries, print_entity, print_match, print_param, get_tables_id.
  only_tac.
Qed.

Lemma only_install_line P line :
  (forall e, is_readback e = false -> P e = true) ->
  only P (install_line w line).
Proof.
  intros HP. apply (only_weaken not_readback).
  { intros e H. apply HP. unfold not_readback in H. destruct (is_readback e); done. }
  unfold install_line, buildTableEntry, WriteTableEntry. only_tac.
Qed.

Lemma only_install P routing_info :
  (forall e, is_readback e = false -> P e = true) ->
  only P (install w routing_info).
Proof.
  intros HP. unfold install. apply only_bind.
  - apply only_emit. apply HP. reflexivity.
  - intros _. apply only_bind; [apply only_lift |].
    intros text. apply only_for_each. intros line. by apply only_install_line.
Qed.

Lemma only_register P name :
  only P (fun s => (Ret tt, {| out := out s; connections := connections s ++ [name] |})).
Proof.
  intros s. exists []. simpl. rewrite app_nil_r. split; [reflexivity | constructor].
Qed.

Lemma only_try_body b r : only any_event (try_body w b r).
Proof.
  unfold try_body. only_tac.
  all: try (apply only_install; reflexivity).
  all: try (apply only_print_table_entries; reflexivity).
  - unfold Bmv2SwitchConnection. only_tac. apply only_register.
  - unfold MasterArbitrationUpdate. only_tac.
  - unfold SetForwardingPipelineConfig. only_tac.
Qed.

Lemma only_handlers P e h :
  (forall x, P (EvPrint x) = true) -> (forall x, P (EvPrintGrpcError x) = true) ->
  handlers e = Some h -> only P h.
Proof.
  intros H1 H2 E. destruct e; simpl in E; inversion E; subst.
  - apply only_emit, H1.
  - apply only_emit, H2.
Qed.

End Footprints.

(** ** The install loop *)

(** An entry the collaborators accept whenever it is offered, and one they
    refuse: the helper cannot build it, or the switch rejects its write. *)
Definition entry_ok (w : World) (d : Descriptor) : Prop :=
  buildTableEntry_r w d = None /\ forall h, WriteTableEntry_r w h d = None.

Definition entry_fails (w : World) (d : Descriptor) : Prop :=
  buildTableEntry_r w d <> None \/ forall h, WriteTableEntry_r w h d <> None.

Definition parses (line : string) : Prop := exists r, parse_line line = Ret r.

Lemma writes_app a b : writes (a ++ b) = writes a ++ writes b.
Proof. apply omap_app. Qed.

Lemma installed_app a b : installed (a ++ b) = installed a ++ installed b.
Proof. apply omap_app. Qed.

Lemma dumped_app a b : dumped (a ++ b) = dumped a ++ dumped b.
Proof. apply omap_app. Qed.

Lemma no_writes evs : Forall (fun e => not_write e = true) evs -> writes evs = [].
Proof.
  induction 1 as [| e evs H _ IH]; [reflexivity |].
  change (e :: evs) with ([e] ++ evs). rewrite writes_app, IH.
  by destruct e as [| | | | | | ? [] | | | | | |].
Qed.

Lemma no_installed evs :
  Forall (fun e => not_write e = true) evs -> installed evs = [].
Proof.
  induction 1 as [| e evs H _ IH]; [reflexivity |].
  change (e :: evs) with ([e] ++ evs). rewrite installed_app, IH.
  by destruct e as [| | | | | | ? [] | | | | | |].
Qed.

Lemma no_dumped evs : Forall (fun e => not_readback e = true) evs -> dumped evs = [].
Proof.
  induction 1 as [| e evs H _ IH]; [reflexivity |].
  change (e :: evs) with ([e] ++ evs). rewrite dumped_app, IH.
  by destruct e as [| | | | | | ? [] | | | | | |].
Qed.

(** What one pass through the loop body does. *)
Definition line_post (w : World) (line : string) (r : res unit) (evs : list event) : Prop :=
  match parse_line line with
  | Raise e => r = Raise e /\ evs = []
  | Ret rec =>
      writes evs `prefix_of` derive_entries rec /\
      installed evs `prefix_of` derive_entries rec /\
      (r = Ret tt ->
       installed evs = derive_entries rec /\ writes evs = derive_entries rec) /\
      (r <> Ret tt -> (length (installed evs) < 3)%nat) /\
      (Forall (entry_ok w) (derive_entries rec) -> r = Ret tt) /\
      (Exists (entry_fails w) (derive_entries rec) -> r <> Ret tt) /\
      builds evs `prefix_of` derive_entries rec /\
      (r = Ret tt -> builds evs = derive_entries rec)
  end.

Lemma post_install_line w line s : post (install_line w line) s (line_post w line).
Proof.
  unfold post, line_post, install_line, buildTableEntry, WriteTableEntry, bind, lift,
    history, print, print_end, emit, check, ret, raise.
  destruct (parse_line line) as [rec | e]; simpl.
  2: { exists []. rewrite app_nil_r. auto. }
  repeat match goal with
  | |- context [match buildTableEntry_r w ?d with _ => _ end] =>
      destruct (buildTableEntry_r w d) eqn:?; simpl
  | |- context [match WriteTableEntry_r w ?h ?d with _ => _ end] =>
      destruct (WriteTableEntry_r w h d) eqn:?; simpl
  end.
  all: rewrite <- ?app_assoc; simpl; eexists; (split; [reflexivity |]).
  all: unfold writes, installed, builds, derive_entries; simpl.
  all: repeat split.
  all: try (by eexists).
  all: try discriminate.
  all: try (intros HH; exfalso; by apply HH).
  all: try (intros; simpl; lia).
  all: try (intros HF; rewrite !Forall_cons in HF; unfold entry_ok in HF;
            destruct HF as ([? ?] & [? ?] & [? ?] & _); congruence).
  all: try (intros HE; rewrite !Exists_cons in HE; unfold entry_fails in HE;
            destruct HE as [[? | ?] | [[? | ?] | [[? | ?] | HE]]];
            try congruence; try (by inversion HE);
            match goal with
            | H : forall h, WriteTableEntry_r _ h ?d <> None,
              H' : WriteTableEntry_r _ ?h0 ?d = None |- _ => destruct (H _ H')
            end).
Qed.

Lemma for_each_app {A} (f : A -> M unit) l1 l2 s :
  for_each f (l1 ++ l2) s = (for_each f l1 ;;; for_each f l2) s.
Proof.
  revert s. induction l1 as [| x l1 IH]; intros s; simpl; [reflexivity |].
  unfold bind. destruct (f x s) as [[[] | e] s1]; [| reflexivity].
  rewrite IH. reflexivity.
Qed.

Lemma planned_app_ok l1 l2 :
  Forall parses l1 -> planned (l1 ++ l2) = planned l1 ++ planned l2.
Proof.
  induction 1 as [| l l1 [r Hr] _ IH]; simpl; [reflexivity |].
  rewrite Hr, IH. reflexivity.
Qed.

Lemma planned_cut lines i bad e :
  lines !! i = Some bad -> parse_line bad = Raise e ->
  planned lines = planned (take i lines).
Proof.
  revert i. induction lines as [| l lines IH]; intros [| i] Hi He; simpl in *;
    try discriminate.
  - inversion Hi; subst. by rewrite He.
  - destruct (parse_line l); [| reflexivity]. do 3 f_equal. eauto.
Qed.

Lemma planned_cons_ok l lines rec :
  parse_line l = Ret rec -> planned (l :: lines) = derive_entries rec ++ planned lines.
Proof. intros H. simpl. by rewrite H. Qed.

Lemma planned_cons_fail l lines e :
  parse_line l = Raise e -> planned (l :: lines) = [].
Proof. intros H. simpl. by rewrite H. Qed.

(** What the whole loop does on a list of lines. *)
Definition loop_post (w : World) (lines : list string) (r : res unit)
    (evs : list event) : Prop :=
  writes evs `prefix_of` planned lines /\
  installed evs `prefix_of` planned lines /\
  (r = Ret tt ->
   installed evs = planned lines /\ writes evs = planned lines /\
   Forall parses lines) /\
  (Forall parses lines -> Forall (entry_ok w) (planned lines) -> r = Ret tt).

Lemma post_install_lines w lines s :
  post (for_each (install_line w) lines) s (loop_post w lines).
Proof.
  revert s. induction lines as [| l lines IH]; intros s; simpl.
  - apply post_ret. unfold loop_post. simpl. repeat split; auto.
  - apply post_bind. eapply post_conseq; [apply post_install_line |].
    intros r evs HL. unfold line_post in HL. unfold loop_post.
    destruct (parse_line l) as [rec | e] eqn:P;
      [rewrite (planned_cons_ok _ lines _ P) | rewrite (planned_cons_fail _ lines _ P)].
    + destruct HL as (Hw & Hi & Hret & _ & Hok & _). destruct r as [[] | e].
      * intros s' _. eapply post_conseq; [apply IH |].
        intros r' evs' (Hw' & Hi' & Hret' & Hok').
        destruct (Hret eq_refl) as [Ei Ew].
        rewrite writes_app, installed_app, Ei, Ew.
        split; [by apply prefix_app |]. split; [by apply prefix_app |].
        split.
        -- intros ->. destruct (Hret' eq_refl) as (-> & -> & HP).
           repeat split; auto. constructor; [by exists rec | done].
        -- intros HP HF. apply Forall_cons in HP as [_ HP].
           apply Forall_app in HF as [_ HF]. auto.
      * split; [by apply prefix_app_r |]. split; [by apply prefix_app_r |].
        split; [discriminate |].
        intros _ HF. apply Forall_app in HF as [HF _]. auto.
    + destruct HL as [-> ->]. simpl.
      split; [apply prefix_nil |]. split; [apply prefix_nil |].
      split; [discriminate |].
      intros HP. apply Forall_cons in HP as [[rec Hrec] _]. congruence.
Qed.

(** ** The [try] block and [main] as a whole *)

Definition quiet_ev (e : event) : bool := (not_write e && not_readback e)%bool.

Lemma post_and {A} (m : M A) s (Q1 Q2 : res A -> list event -> Prop) :
  post m s Q1 -> post m s Q2 -> post m s (fun r evs => Q1 r evs /\ Q2 r evs).
Proof.
  intros (e1 & E1 & H1) (e2 & E2 & H2). exists e1. repeat split; auto.
  rewrite E1 in E2. apply app_inv_head in E2. by subst.
Qed.

Lemma post_call ev r s Q :
  match r with None => Q (Ret tt) [ev] | Some e => Q (Raise e) [ev] end ->
  post (emit ev ;;; check r) s Q.
Proof.
  intros H. apply post_bind, post_emit. intros s' _. apply post_check.
  by destruct r.
Qed.

Lemma post_Bmv2SwitchConnection w name address device_id s Q :
  let ev := EvBmv2SwitchConnection name address device_id in
  match Bmv2SwitchConnection_r w with
  | None => Q (Ret tt) [ev]
  | Some e => Q (Raise e) [ev]
  end ->
  post (Bmv2SwitchConnection w name address device_id) s Q.
Proof.
  intros ev H. unfold post, Bmv2SwitchConnection, bind, emit, check, ret, raise.
  destruct (Bmv2SwitchConnection_r w); simpl; eexists; eauto.
Qed.

Definition setup_ok (w : World) : Prop :=
  Bmv2SwitchConnection_r w = None /\ MasterArbitrationUpdate_r w = None /\
  SetForwardingPipelineConfig_r w = None.

Lemma post_ShutdownAllSwitchConnections s Q :
  Q (Ret tt) [EvShutdown] -> post ShutdownAllSwitchConnections s Q.
Proof. intros H. exists [EvShutdown]. simpl. auto. Qed.

(** What the [except] clauses and the final shutdown make of the outcome
    of the [try] block. *)
Definition after_handlers (rb : res unit) : res unit :=
  match rb with
  | Ret _ | Raise KeyboardInterrupt | Raise (RpcError _) => Ret tt
  | Raise e => Raise e
  end.

Definition handler_events (rb : res unit) : list event :=
  match rb with
  | Ret _ => [EvShutdown]
  | Raise KeyboardInterrupt =>
      [EvPrint (" Shutting down." +:+ String Py.nl ""); EvShutdown]
  | Raise (RpcError d) => [EvPrintGrpcError (RpcError d); EvShutdown]
  | Raise _ => []
  end.

Section Whole.

Variable w : World.
Variable routing_info : string.

(** Any property [QL] established of the loop can be carried to a run of
    [main]. *)
Variable QL : string -> res unit -> list event -> Prop.
Hypothesis loop_spec :
  forall text s, open_r w routing_info = Ret text ->
                 post (for_each (install_line w) (Py.readlines text)) s (QL text).

(** Either the run stops before the loop (nothing is written, nothing
    read back), or the trace splits into set-up, loop and dump. *)
Definition body_post (r : res unit) (evs : list event) : Prop :=
  (r <> Ret tt /\ Forall (fun e => quiet_ev e = true) evs /\
   (~ setup_ok w \/ exists e, open_r w routing_info = Raise e))
  \/
  (setup_ok w /\
   exists text pre ievs devs rl,
     open_r w routing_info = Ret text /\
     evs = pre ++ ievs ++ devs /\
     Forall (fun e => quiet_ev e = true) pre /\
     QL text rl ievs /\
     Forall (fun e => not_readback e = true) ievs /\
     Forall (fun e => not_write e = true) devs /\
     (rl <> Ret tt -> devs = [] /\ r = rl)).

Lemma post_try_body b s : post (try_body w b routing_info) s body_post.
Proof.
  unfold try_body.
  apply post_bind, post_Bmv2SwitchConnection.
  destruct (Bmv2SwitchConnection_r w) eqn:EC.
  { left. split; [discriminate |]. split; [by repeat constructor |].
    left. intros (H & _). congruence. }
  intros s1 _. apply post_bind, post_call.
  destruct (MasterArbitrationUpdate_r w) eqn:EA.
  { left. split; [discriminate |]. split; [by repeat constructor |].
    left. intros (_ & H & _). congruence. }
  intros s2 _. apply post_bind, post_call.
  destruct (SetForwardingPipelineConfig_r w) eqn:EF.
  { left. split; [discriminate |]. split; [by repeat constructor |].
    left. intros (_ & _ & H). congruence. }
  intros s3 _. apply post_bind, post_emit.
  intros s4 _. apply post_bind. unfold install.
  apply post_bind, post_emit.
  intros s5 _. apply post_bind, post_lift.
  destruct (open_r w routing_info) as [text | e] eqn:EO.
  2: { left. split; [discriminate |]. split; [by repeat constructor |].
       right. by exists e. }
  intros s6 _. eapply post_conseq.
  { apply post_and; [by apply loop_spec |].
    apply (only_for_each not_readback). intros line.
    apply only_install_line. intros e H. unfold not_readback. by rewrite H. }
  intros r ievs [HL HN]. simpl in HN.
  set (pre := [EvBmv2SwitchConnection "s1" "127.0.0.1:50051" 0;
               EvMasterArbitrationUpdate; EvSetForwardingPipelineConfig b;
               EvPrint (("Installed P4 Program using SetForwardingPipelineConfig on "
                         +:+ "s1") +:+ String Py.nl "");
               EvOpen routing_info]).
  assert (Hpre : Forall (fun e => quiet_ev e = true) pre) by (by repeat constructor).
  destruct r as [[] | e].
  - intros s7 _. eapply post_conseq.
    { apply (only_bind not_write); [| intros _; apply only_bind; [| intros _]];
        (apply only_print_table_entries; intros e H; unfold not_write; by rewrite H). }
    intros r' devs HD. simpl in HD. right. split; [done |].
    exists text, pre, ievs, devs, (Ret tt).
    split; [done |]. split; [unfold pre; simpl; by rewrite <- ?app_assoc |].
    split; [done |]. split; [done |]. split; [done |]. split; [done |].
    intros H. by destruct H.
  - right. split; [done |].
    exists text, pre, ievs, [], (Raise e).
    split; [done |]. split; [unfold pre; simpl; by rewrite ?app_nil_r |].
    split; [done |]. split; [done |]. split; [done |]. split; [constructor |].
    done.
Qed.

Definition main_post (p4info_file_path : string) (r : res unit)
    (evs : list event) : Prop :=
  match P4InfoHelper_r w p4info_file_path with
  | Some e => r = Raise e /\ evs = [EvP4InfoHelper p4info_file_path]
  | None =>
      exists rb bevs,
        body_post rb bevs /\
        evs = EvP4InfoHelper p4info_file_path :: bevs ++ handler_events rb /\
        r = after_handlers rb
  end.

Lemma post_main p4 b s : post (main w p4 b routing_info) s (main_post p4).
Proof.
  unfold main, main_post. apply post_bind. unfold P4InfoHelper. apply post_call.
  destruct (P4InfoHelper_r w p4) eqn:EH; [done |].
  intros s1 _. apply post_bind, post_try_except.
  eapply post_conseq; [apply post_try_body |].
  intros rb bevs HB. destruct rb as [[] | e].
  - intros s2 _. apply post_ShutdownAllSwitchConnections.
    exists (Ret tt), bevs. done.
  - destruct e; simpl.
    + intros s2 _. apply post_emit. intros s3 _.
      apply post_ShutdownAllSwitchConnections.
      exists (Raise KeyboardInterrupt), bevs. simpl.
      split; [done |]. split; [by rewrite <- app_assoc | done].
    + intros s2 _. apply post_emit. intros s3 _.
      apply post_ShutdownAllSwitchConnections.
      exists (Raise (RpcError detail)), bevs. simpl.
      split; [done |]. split; [by rewrite <- app_assoc | done].
    + exists (Raise ValueError), bevs. simpl. by rewrite app_nil_r.
    + exists (Raise IndexError), bevs. simpl. by rewrite app_nil_r.
    + exists (Raise (SystemExit code)), bevs. simpl. by rewrite app_nil_r.
    + exists (Raise (OtherException name)), bevs. simpl. by rewrite app_nil_r.
Qed.

Lemma main_run p4 b :
  main_post p4 (result (main w p4 b routing_info)) (trace (main w p4 b routing_info)).
Proof.
  destruct (post_main p4 b init) as (evs & E & H).
  unfold result, trace, run.
  destruct (main w p4 b routing_info init) as [r s]. simpl in *.
  by rewrite E.
Qed.

End Whole.

Lemma quiet_split evs :
  Forall (fun e => quiet_ev e = true) evs ->
  Forall (fun e => not_write e = true) evs /\
  Forall (fun e => not_readback e = true) evs.
Proof.
  intros H. split; eapply Forall_impl; eauto; intros e He;
    unfold quiet_ev in He; apply andb_prop in He; tauto.
Qed.

Lemma quiet_silent evs :
  Forall (fun e => quiet_ev e = true) evs ->
  writes evs = [] /\ installed evs = [] /\ dumped evs = [].
Proof.
  intros H. apply quiet_split in H as [H1 H2].
  auto using no_writes, no_installed, no_dumped.
Qed.

Lemma handler_events_quiet rb : Forall (fun e => quiet_ev e = true) (handler_events rb).
Proof. destruct rb as [| []]; by repeat constructor. Qed.

(** The install stage of a whole run, read off its trace. *)
Lemma main_summary w ri QL p4 b :
  (forall text s, open_r w ri = Ret text ->
                  post (for_each (install_line w) (Py.readlines text)) s (QL text)) ->
  let tr := trace (main w p4 b ri) in
  let r := result (main w p4 b ri) in
  (writes tr = [] /\ installed tr = [] /\ dumped tr = [] /\
   (P4InfoHelper_r w p4 <> None \/ ~ setup_ok w \/ exists e, open_r w ri = Raise e))
  \/
  (exists text rl ievs,
     P4InfoHelper_r w p4 = None /\ setup_ok w /\ open_r w ri = Ret text /\
     QL text rl ievs /\
     writes tr = writes ievs /\ installed tr = installed ievs /\
     (rl <> Ret tt -> dumped tr = [] /\ r = after_handlers rl)).
Proof.
  intros HQL tr r. subst tr r.
  pose proof (main_run w ri QL HQL p4 b) as H. unfold main_post in H.
  destruct (P4InfoHelper_r w p4) as [e |] eqn:EH.
  { destruct H as [_ ->]. left. repeat split; auto. }
  destruct H as (rb & bevs & HB & -> & ->).
  destruct (quiet_silent _ (handler_events_quiet rb)) as (Hw & Hi & Hd).
  change (EvP4InfoHelper p4 :: bevs ++ handler_events rb)
    with ([EvP4InfoHelper p4] ++ bevs ++ handler_events rb).
  rewrite !writes_app, !installed_app, !dumped_app, Hw, Hi, Hd, !app_nil_r.
  simpl.
  destruct HB as [(Hr & Hq & Hwhy) | (Hs & text & pre & ievs & devs & rl & EO & -> & Hq & HL & Hnr & Hnw & Hrl)].
  - left. destruct (quiet_silent _ Hq) as (-> & -> & ->). repeat split; auto.
  - right. exists text, rl, ievs.
    destruct (quiet_silent _ Hq) as (Hw1 & Hi1 & Hd1).
    rewrite !writes_app, !installed_app, !dumped_app, Hw1, Hi1, Hd1.
    rewrite (no_writes _ Hnw), (no_installed _ Hnw), (no_dumped _ Hnr), !app_nil_r.
    simpl. split; [done |]. split; [done |]. split; [done |]. split; [done |].
    split; [done |]. split; [done |].
    intros Hne. by destruct (Hrl Hne) as [-> ->].
Qed.

(** The events a computation adds when run from [s]. *)
Definition emitted {A} (m : M A) (s : state) : list event :=
  drop (length (out s)) (out (m s).2).

Lemma post_emitted {A} (m : M A) s Q : post m s Q -> Q (m s).1 (emitted m s).
Proof.
  intros (evs & E & H). unfold emitted. by rewrite E, drop_app_length.
Qed.

(** ** Concrete inputs *)

Definition line_h1 : string :=
  "10.0.1.0/24,10.0.1.1,08:00:00:00:01:11,08:00:00:00:01:00,1".
Definition line_h2 : string :=
  "10.0.2.0/24,10.0.2.2,08:00:00:00:02:22,08:00:00:00:02:00,2".

Definition record_h1 : RoutingRecord :=
  {| prefix := "10.0.1.0"; prefix_len := 24; next_hop_ip := "10.0.1.1";
     next_hop_mac := "08:00:00:00:01:11"; egress_mac := "08:00:00:00:01:00";
     egress_port := 1 |}.

(** The text of a file made of the given lines, each one terminated. *)
Definition file_of (lines : list string) : string :=
  String.concat EmptyString (map (fun l => l +:+ String Py.nl EmptyString) lines).

(** A schema that knows the three tables of the program by the names they
    are written under, and nothing else. *)
Definition schema_tables (name : string) : res Z :=
  if String.eqb name "MyIngress.ipv4_route" then Ret 1
  else if String.eqb name "MyIngress.arp_table" then Ret 2
  else if String.eqb name "MyIngress.dmac_forward" then Ret 3
  else Raise (OtherException "AttributeError").

(** The schema of the lab's P4 program, as far as the dump needs it: the
    match field of each table, the actions and their parameters. *)
Definition schema_match_field (table_name : string) (id : Z) : res string :=
  if String.eqb table_name "MyIngress.ipv4_route" then Ret "hdr.ipv4.dst_ipAddr"
  else if String.eqb table_name "MyIngress.arp_table" then Ret "meta.next_hop"
  else if String.eqb table_name "MyIngress.dmac_forward"
       then Ret "hdr.ethernet.dest_macAddr"
  else Raise (OtherException "AttributeError").

Definition schema_action (id : Z) : res string :=
  if Z.eqb id 1 then Ret "MyIngress.forward_to_next_hop"
  else if Z.eqb id 2 then Ret "MyIngress.change_dst_mac"
  else if Z.eqb id 3 then Ret "MyIngress.forward_to_port"
  else Raise (OtherException "AttributeError").

Definition schema_param (action_name : string) (id : Z) : res string :=
  if String.eqb action_name "MyIngress.forward_to_next_hop" then Ret "next_hop"
  else if String.eqb action_name "MyIngress.change_dst_mac" then Ret "dst_mac"
  else if String.eqb action_name "MyIngress.forward_to_port"
       then (if Z.eqb id 1 then Ret "egress_port" else Ret "egress_mac")
  else Raise (OtherException "AttributeError").

(** The worlds of the examples: which paths exist, whether the connection
    can be set up, what opening the routing file gives, which entries the
    helper builds and the switch accepts, and what a table reads back. *)
Definition lab_world (exists_ : string -> bool) (connect : option exn)
    (file : res string) (build : Descriptor -> option exn)
    (write : list event -> Descriptor -> option exn)
    (read : Z -> list ReadResponse) : World :=
  {| path_exists := exists_;
     P4InfoHelper_r := fun _ => None;
     Bmv2SwitchConnection_r := connect;
     MasterArbitrationUpdate_r := None;
     SetForwardingPipelineConfig_r := None;
     open_r := fun _ => file;
     buildTableEntry_r := build;
     WriteTableEntry_r := write;
     get_tables_id_r := schema_tables;
     ReadTableEntries_r := fun _ id => (read id, None);
     get_match_field_name_r := schema_match_field;
     get_actions_name_r := schema_action;
     get_action_param_name_r := schema_param |}.

(** A world in which every call succeeds and the tables read back empty. *)
Definition calm (text : string) : World :=
  lab_world (fun _ => true) None (Ret text) (fun _ => None) (fun _ _ => None)
            (fun _ => []).

Example parse_line_h1 : parse_line line_h1 = Ret record_h1.
Proof. reflexivity. Qed.

Example parse_line_terminated :
  parse_line (line_h1 +:+ String Py.nl EmptyString) = Ret record_h1.
Proof. reflexivity. Qed.

Example parse_line_four_fields :
  parse_line "10.0.1.0/24,10.0.1.1,08:00:00:00:01:11,08:00:00:00:01:00"
  = Raise IndexError.
Proof. reflexivity. Qed.

Example parse_line_blank : parse_line (String Py.nl EmptyString) = Raise ValueError.
Proof. reflexivity. Qed.

(** ** Properties of the controller *)

(** C2. Every routing record derives exactly three table entries: the route
    entry (prefix match on [hdr.ipv4.dst_ipAddr] with prefix and length,
    parameter the next-hop address), the ARP entry (exact match on the
    next-hop address, parameter the next-hop MAC) and the forward entry
    (exact match on the next-hop MAC, parameters egress port and egress
    MAC); these are the descriptions the loop body builds and writes for a
    line, and the sample line gives exactly the three of the scenario. *)
Theorem record_derives_three_entries :
  (forall w line r s,
      parse_line line = Ret r ->
      Forall (entry_ok w) (derive_entries r) ->
      let evs := emitted (install_line w line) s in
      builds evs =
        [ {| table_name := "MyIngress.ipv4_route";
             match_fields :=
               [("hdr.ipv4.dst_ipAddr", PList [PStr (prefix r); PInt (prefix_len r)])];
             action_name := "MyIngress.forward_to_next_hop";
             action_params := [("next_hop", Atom (PStr (next_hop_ip r)))] |};
          {| table_name := "MyIngress.arp_table";
             match_fields := [("meta.next_hop", Atom (PStr (next_hop_ip r)))];
             action_name := "MyIngress.change_dst_mac";
             action_params := [("dst_mac", Atom (PStr (next_hop_mac r)))] |};
          {| table_name := "MyIngress.dmac_forward";
             match_fields :=
               [("hdr.ethernet.dest_macAddr", Atom (PStr (next_hop_mac r)))];
             action_name := "MyIngress.forward_to_port";
             action_params := [("egress_port", Atom (PInt (egress_port r)));
                               ("egress_mac", Atom (PStr (egress_mac r)))] |} ]
      /\ writes evs = builds evs)
  /\ parse_line "10.0.1.0/24,10.0.1.1,08:00:00:00:01:11,08:00:00:00:01:00,1"
     = Ret {| prefix := "10.0.1.0"; prefix_len := 24; next_hop_ip := "10.0.1.1";
              next_hop_mac := "08:00:00:00:01:11";
              egress_mac := "08:00:00:00:01:00"; egress_port := 1 |}.
Proof.
  split; [| reflexivity].
  intros w line r s Hp Hok evs.
  pose proof (post_emitted _ _ _ (post_install_line w line s)) as H.
  unfold line_post in H. rewrite Hp in H.
  destruct H as (_ & _ & Hret & _ & Hr & _ & _ & Hb).
  specialize (Hr Hok). destruct (Hret Hr) as [_ Hw].
  subst evs. rewrite Hw, (Hb Hr). split; reflexivity.
Qed.

Lemma record_derives_three_entries_witness :
  parse_line line_h1 = Ret record_h1 /\
  Forall (entry_ok (calm line_h1)) (derive_entries record_h1) /\
  writes (emitted (install_line (calm line_h1) line_h1) init)
  = builds (emitted (install_line (calm line_h1) line_h1) init).
Proof.
  assert (Hp : parse_line line_h1 = Ret record_h1) by reflexivity.
  assert (Hok : Forall (entry_ok (calm line_h1)) (derive_entries record_h1)).
  { repeat constructor. }
  split; [exact Hp |]. split; [exact Hok |].
  exact (proj2 (proj1 record_derives_three_entries (calm line_h1) line_h1 record_h1
                      init Hp Hok)).
Defined.


Example writes_of_two_records :
  writes (trace (main (calm (file_of [line_h1; line_h2])) "p4info" "bmv2.json" "routes"))
  = planned [line_h1; line_h2]
  /\ length (planned [line_h1; line_h2]) = 6%nat.
Proof. split; by vm_compute. Qed.

(** ** Partial failure (C1) *)

(** The loop of a run, identified by the state it starts from. *)
Definition loop_run (w : World) (text : string) (r : res unit)
    (evs : list event) : Prop :=
  exists s, r = (for_each (install_line w) (Py.readlines text) s).1 /\
            evs = emitted (for_each (install_line w) (Py.readlines text)) s.

Lemma loop_run_spec w (ri : string) text s :
  open_r w ri = Ret text ->
  post (for_each (install_line w) (Py.readlines text)) s (loop_run w text).
Proof.
  intros _. destruct (post_install_lines w (Py.readlines text) s) as (evs & E & _).
  exists evs. split; [done |]. exists s. split; [done |].
  unfold emitted. by rewrite E, drop_app_length.
Qed.

Lemma post_for_each_app {A} (f : A -> M unit) l1 l2 s Q :
  post (for_each f l1 ;;; for_each f l2) s Q -> post (for_each f (l1 ++ l2)) s Q.
Proof. unfold post. by rewrite for_each_app. Qed.

Lemma planned_length lines :
  Forall parses lines -> length (planned lines) = (3 * length lines)%nat.
Proof.
  induction 1 as [| l lines [r Hr] _ IH]; [reflexivity |].
  rewrite (planned_cons_ok _ _ _ Hr), length_app, IH. simpl. lia.
Qed.

Lemma planned_ok w lines :
  (forall j lj rj, lines !! j = Some lj -> parse_line lj = Ret rj ->
                   Forall (entry_ok w) (derive_entries rj)) ->
  Forall (entry_ok w) (planned lines).
Proof.
  induction lines as [| l lines IH]; intros H; [constructor |].
  destruct (parse_line l) as [r | e] eqn:P.
  - rewrite (planned_cons_ok _ _ _ P). apply Forall_app. split.
    + apply (H 0%nat l r); done.
    + apply IH. intros j lj rj Hj. apply (H (S j)). exact Hj.
  - rewrite (planned_cons_fail _ _ _ P). constructor.
Qed.

(** The loop on a list of lines whose first [length before] records install
    without error and whose next record has a failing entry: it stops in
    that record. *)
Lemma post_install_failing_record w before lk rk after s :
  Forall parses before -> Forall (entry_ok w) (planned before) ->
  parse_line lk = Ret rk -> Exists (entry_fails w) (derive_entries rk) ->
  post (for_each (install_line w) (before ++ lk :: after)) s
       (fun r evs =>
          r <> Ret tt /\
          exists pre, installed evs = planned before ++ pre /\
                      pre `prefix_of` derive_entries rk /\ (length pre < 3)%nat).
Proof.
  intros Hp Hok Hk Hf. apply post_for_each_app, post_bind.
  eapply post_conseq; [apply post_install_lines |].
  intros r evs (_ & _ & Hret & Hr). specialize (Hr Hp Hok). subst r.
  destruct (Hret eq_refl) as (Ei & _ & _).
  intros s1 _. simpl. apply post_bind.
  eapply post_conseq; [apply post_install_line |].
  intros r2 evs2 HL. unfold line_post in HL. rewrite Hk in HL.
  destruct HL as (_ & Hi & _ & Hlen & _ & Hne & _).
  specialize (Hne Hf). destruct r2 as [[] | e]; [done |].
  split; [done |]. exists (installed evs2).
  rewrite installed_app, Ei. split; [done |]. split; [done |]. by apply Hlen.
Qed.

(** Exactly one record, the one at index [k], fails at the encode/install
    stage: one of its entries is refused, the entries of all other records
    are accepted, and nothing else goes wrong. *)
Definition one_record_fails (w : World) (p4info_file_path routing_info : string)
    (lines : list string) (k : nat) : Prop :=
  P4InfoHelper_r w p4info_file_path = None /\ setup_ok w /\
  (exists text, open_r w routing_info = Ret text /\ Py.readlines text = lines) /\
  Forall parses lines /\
  (exists lk rk, lines !! k = Some lk /\ parse_line lk = Ret rk /\
                 Exists (entry_fails w) (derive_entries rk)) /\
  (forall j lj rj, j <> k -> lines !! j = Some lj -> parse_line lj = Ret rj ->
                   Forall (entry_ok w) (derive_entries rj)).

(** A record the helper cannot encode, and a world that refuses to build
    its three entries. *)
Definition line_bad : string := "10.0.9.0/24,not-an-ip,zz:zz,08:00:00:00:09:00,9".

Definition record_bad : RoutingRecord :=
  {| prefix := "10.0.9.0"; prefix_len := 24; next_hop_ip := "not-an-ip";
     next_hop_mac := "zz:zz"; egress_mac := "08:00:00:00:09:00";
     egress_port := 9 |}.

Definition refusing (text : string) : World :=
  lab_world (fun _ => true) None (Ret text)
            (fun d => if decide (d ∈ derive_entries record_bad)
                      then Some (OtherException "Exception") else None)
            (fun _ _ => None) (fun _ => []).

Definition lines_bad_first : list string :=
  [line_bad +:+ String Py.nl EmptyString; line_h1 +:+ String Py.nl EmptyString].

Lemma bad_first_scenario :
  one_record_fails (refusing (file_of [line_bad; line_h1])) "p4info" "routes"
                   lines_bad_first 0.
Proof.
  split; [reflexivity |]. split; [by repeat split |].
  split; [by exists (file_of [line_bad; line_h1]) |].
  split; [repeat constructor; by eexists |].
  split.
  - exists (line_bad +:+ String Py.nl EmptyString), record_bad.
    split; [reflexivity |]. split; [reflexivity |].
    apply Exists_cons_hd. left. by vm_compute.
  - intros [| [| j]] lj rj Hj Hl Hp; try done.
    inversion Hl; subst. vm_compute in Hp. inversion Hp; subst.
    repeat constructor.
Qed.

(** Counterexample to C1: with two records of which the first cannot be
    encoded, exactly one record fails, yet no entry at all is installed
    (the claim promises 3(N-1) = 3) and the second record is never
    processed. *)
Lemma partial_failure_counterexample :
  let w := refusing (file_of [line_bad; line_h1]) in
  let tr := trace (main w "p4info" "bmv2.json" "routes") in
  one_record_fails w "p4info" "routes" lines_bad_first 0 /\
  length lines_bad_first = 2%nat /\
  installed tr = [] /\
  length (installed tr) <> (3 * (length lines_bad_first - 1))%nat /\
  builds tr = [routing_table_entry record_bad] /\
  result (main w "p4info" "bmv2.json" "routes") = Raise (OtherException "Exception").
Proof.
  split; [exact bad_first_scenario |].
  split; [reflexivity |]. split; [by vm_compute |].
  split; [by vm_compute |]. split; by vm_compute.
Qed.

(** C1, amended. When exactly one record [k] (counted from 0) fails at the
    encode/install stage, the install stops inside that record: the [3k]
    entries of the records before it are installed, then fewer than three
    entries of record [k], and nothing of any later record; no read-back
    follows. *)
Theorem install_stops_at_failing_record :
  forall w p4info_file_path bmv2_file_path routing_info lines k,
    one_record_fails w p4info_file_path routing_info lines k ->
    let tr := trace (main w p4info_file_path bmv2_file_path routing_info) in
    exists lk rk pre,
      lines !! k = Some lk /\ parse_line lk = Ret rk /\
      installed tr = planned (take k lines) ++ pre /\
      length (planned (take k lines)) = (3 * k)%nat /\
      pre `prefix_of` derive_entries rk /\ (length pre < 3)%nat /\
      dumped tr = [].
Proof.
  intros w p4 b ri lines k (EH & Hs & (text & EO & <-) & Hp & (lk & rk & Hk & Pk & Hf) & Hothers) tr.
  subst tr. set (lines := Py.readlines text) in *.
  assert (Hsplit : take k lines ++ lk :: drop (S k) lines = lines)
    by (by apply take_drop_middle).
  assert (Hpb : Forall parses (take k lines)) by (by apply Forall_take).
  assert (Hokb : Forall (entry_ok w) (planned (take k lines))).
  { apply planned_ok. intros j lj rj Hj Hpj.
    apply lookup_take_Some in Hj as [Hj Hlt].
    apply (Hothers j lj rj); [lia | done | done]. }
  exists lk, rk.
  destruct (main_summary w ri (loop_run w) p4 b (loop_run_spec w ri))
    as [(_ & _ & _ & [H | [H | [e H]]]) | (text' & rl & ievs & _ & _ & EO' & (s & -> & ->) & _ & -> & Hrl)];
    try congruence; try done.
  assert (text' = text) by congruence. subst text'. fold lines in Hrl |- *.
  pose proof (post_emitted _ _ _
    (post_install_failing_record w (take k lines) lk rk (drop (S k) lines) s
       Hpb Hokb Pk Hf)) as H.
  rewrite Hsplit in H. destruct H as (Hne & pre & Hi & Hpre & Hlen).
  exists pre. split; [done |]. split; [done |]. split; [done |].
  split.
  { rewrite (planned_length _ Hpb), length_take.
    apply lookup_lt_Some in Hk. lia. }
  split; [done |]. split; [done |].
  by destruct (Hrl Hne).
Qed.

Lemma install_stops_at_failing_record_witness :
  one_record_fails (refusing (file_of [line_bad; line_h1])) "p4info" "routes"
                   lines_bad_first 0 /\
  exists lk rk pre,
    lines_bad_first !! 0%nat = Some lk /\ parse_line lk = Ret rk /\
    installed (trace (main (refusing (file_of [line_bad; line_h1]))
                           "p4info" "bmv2.json" "routes"))
    = planned (take 0 lines_bad_first) ++ pre /\
    length (planned (take 0 lines_bad_first)) = (3 * 0)%nat /\
    pre `prefix_of` derive_entries rk /\ (length pre < 3)%nat /\
    dumped (trace (main (refusing (file_of [line_bad; line_h1]))
                        "p4info" "bmv2.json" "routes")) = [].
Proof.
  split; [exact bad_first_scenario |].
  exact (install_stops_at_failing_record _ "p4info" "bmv2.json" "routes"
           lines_bad_first 0%nat bad_first_scenario).
Defined.

(** ** A malformed line (C4) *)

Lemma four_fields_unparsable line :
  length (Py.split ","%char line) = 4%nat ->
  parse_line line = Raise ValueError \/ parse_line line = Raise IndexError.
Proof.
  unfold parse_line.
  destruct (Py.split ","%char line) as [| f0 [| f1 [| f2 [| f3 [| f4 l]]]]];
    simpl; intros H; try discriminate.
  destruct (Py.split "/"%char f0) as [| a [| c [| d l]]]; simpl; auto.
Qed.

(** The loop on a list of lines whose first [length before] records install
    without error and whose next line does not parse: the records before
    it are installed, then the parse error ends the loop. *)
Lemma post_install_unparsable w before bad e after s :
  Forall parses before -> Forall (entry_ok w) (planned before) ->
  parse_line bad = Raise e ->
  post (for_each (install_line w) (before ++ bad :: after)) s
       (fun r evs => r = Raise e /\ installed evs = planned before /\
                     writes evs = planned before).
Proof.
  intros Hp Hok Hk. apply post_for_each_app, post_bind.
  eapply post_conseq; [apply post_install_lines |].
  intros r evs (_ & _ & Hret & Hr). specialize (Hr Hp Hok). subst r.
  destruct (Hret eq_refl) as (Ei & Ew & _).
  intros s1 _. simpl. apply post_bind.
  eapply post_conseq; [apply post_install_line |].
  intros r2 evs2 HL. unfold line_post in HL. rewrite Hk in HL.
  destruct HL as [-> ->]. by rewrite app_nil_r.
Qed.

Definition line_four : string :=
  "10.0.2.0/24,10.0.2.2,08:00:00:00:02:22,08:00:00:00:02:00".

(** Counterexample to C4: the second line of the file has four fields, yet
    the three entries of the first line are installed, and the run ends in
    an uncaught [IndexError]. *)
Lemma malformed_line_counterexample :
  let text := file_of [line_h1; line_four] in
  let tr := trace (main (calm text) "p4info" "bmv2.json" "routes") in
  Py.readlines text !! 1%nat = Some (line_four +:+ String Py.nl EmptyString) /\
  length (Py.split ","%char (line_four +:+ String Py.nl EmptyString)) = 4%nat /\
  installed tr = derive_entries record_h1 /\
  installed tr <> [] /\
  result (main (calm text) "p4info" "bmv2.json" "routes") = Raise IndexError.
Proof.
  split; [reflexivity |]. split; [reflexivity |]. split; [by vm_compute |].
  split; [by vm_compute |]. by vm_compute.
Qed.

(** C4, amended. When a line of the file has four comma-separated fields,
    the run never gets past it: the writes issued are an initial segment of
    the entries of the lines before it (they stay installed), nothing of
    that line or of a later one is written and no read-back is done; and
    when everything before that line succeeds, all the earlier entries are
    installed and [main] ends with an uncaught [IndexError] or
    [ValueError]. *)
Theorem malformed_line_stops_install :
  forall w p4info_file_path bmv2_file_path routing_info text i bad,
    open_r w routing_info = Ret text ->
    Py.readlines text !! i = Some bad ->
    length (Py.split ","%char bad) = 4%nat ->
    let tr := trace (main w p4info_file_path bmv2_file_path routing_info) in
    let before := take i (Py.readlines text) in
    writes tr `prefix_of` planned before /\
    dumped tr = [] /\
    (P4InfoHelper_r w p4info_file_path = None -> setup_ok w ->
     Forall parses before -> Forall (entry_ok w) (planned before) ->
     installed tr = planned before /\
     (result (main w p4info_file_path bmv2_file_path routing_info) = Raise IndexError \/
      result (main w p4info_file_path bmv2_file_path routing_info) = Raise ValueError)).
Proof.
  intros w p4 b ri text i bad EO Hi H4 tr before. subst tr before.
  set (lines := Py.readlines text) in *.
  assert (Hbad : exists e, parse_line bad = Raise e /\ (e = ValueError \/ e = IndexError)).
  { destruct (four_fields_unparsable bad H4) as [H | H]; eauto. }
  destruct Hbad as (e & Pe & He).
  assert (Hsplit : take i lines ++ bad :: drop (S i) lines = lines)
    by (by apply take_drop_middle).
  destruct (main_summary w ri (loop_run w) p4 b (loop_run_spec w ri))
    as [(-> & -> & -> & Hwhy) | (text' & rl & ievs & EH & Hs & EO' & (s & -> & ->) & -> & -> & Hrl)].
  { split; [apply prefix_nil |]. split; [done |].
    intros EH Hs _ _. destruct Hwhy as [H | [H | [e' H]]]; congruence || done. }
  assert (text' = text) by congruence. subst text'. fold lines in Hrl |- *.
  pose proof (post_emitted _ _ _ (post_install_lines w lines s))
    as (Hw & _ & Hret & _).
  assert (Hne : (for_each (install_line w) lines s).1 <> Ret tt).
  { intros Hr. destruct (Hret Hr) as (_ & _ & HP).
    rewrite Forall_lookup in HP. destruct (HP i bad Hi) as [r Hr']. congruence. }
  split; [by rewrite <- (planned_cut lines i bad e Hi Pe) |].
  split; [by destruct (Hrl Hne) |].
  intros _ _ Hpb Hokb.
  pose proof (post_emitted _ _ _
    (post_install_unparsable w (take i lines) bad e (drop (S i) lines) s
       Hpb Hokb Pe)) as H.
  rewrite Hsplit in H. destruct H as (Hr & Hin & _).
  split; [done |].
  destruct (Hrl Hne) as [_ ->]. rewrite Hr.
  destruct He as [-> | ->]; simpl; auto.
Qed.

Lemma malformed_line_stops_install_witness :
  let text := file_of [line_h1; line_four] in
  let tr := trace (main (calm text) "p4info" "bmv2.json" "routes") in
  Py.readlines text !! 1%nat = Some (line_four +:+ String Py.nl EmptyString) /\
  writes tr `prefix_of` planned (take 1 (Py.readlines text)) /\
  dumped tr = [] /\
  installed tr = planned (take 1 (Py.readlines text)).
Proof.
  intros text tr.
  assert (H1 : open_r (calm text) "routes" = Ret text) by reflexivity.
  assert (H2 : Py.readlines text !! 1%nat
               = Some (line_four +:+ String Py.nl EmptyString)) by reflexivity.
  assert (H3 : length (Py.split ","%char (line_four +:+ String Py.nl EmptyString))
               = 4%nat) by reflexivity.
  assert (H4 : P4InfoHelper_r (calm text) "p4info" = None) by reflexivity.
  assert (H5 : setup_ok (calm text)) by (by repeat split).
  assert (H6 : Forall parses (take 1 (Py.readlines text))).
  { repeat constructor. by exists record_h1. }
  assert (H7 : Forall (entry_ok (calm text)) (planned (take 1 (Py.readlines text)))).
  { repeat constructor. }
  destruct (malformed_line_stops_install (calm text) "p4info" "bmv2.json" "routes"
              text 1%nat _ H1 H2 H3) as (Hw & Hd & Hrest).
  destruct (Hrest H4 H5 H6 H7) as [Hin _].
  split; [exact H2 |]. split; [exact Hw |]. split; [exact Hd | exact Hin].
Defined.

(** ** Read-back table names (C5) *)

(** The names lines 121-123 hand to [print_table_entries]. *)
Definition dump_names : list string :=
  ["MyIngress.ipv4_route"; "MyIngress.arp_table_entry"; "MyIngress.mac_table_entry"].

Definition dump_name_ok (e : event) : bool :=
  match e with
  | EvGetTablesId n => bool_decide (n ∈ dump_names)
  | _ => true
  end.

Lemma only_ShutdownAllSwitchConnections (P : event -> bool) :
  P EvShutdown = true -> only P ShutdownAllSwitchConnections.
Proof.
  intros H s. apply post_ShutdownAllSwitchConnections. by repeat constructor.
Qed.

Lemma only_main_dump_names w p4 b ri : only dump_name_ok (main w p4 b ri).
Proof.
  unfold main. apply only_bind; [unfold P4InfoHelper; only_tac |]. intros _.
  apply only_bind; [| intros _; by apply only_ShutdownAllSwitchConnections].
  apply only_try_except.
  - unfold try_body. only_tac.
    all: try (apply only_install; intros e H; by destruct e).
    all: try (unfold print_table_entries, print_entity, print_match, print_param,
               get_tables_id; only_tac).
    + unfold Bmv2SwitchConnection. only_tac. apply only_register.
    + unfold MasterArbitrationUpdate. only_tac.
    + unfold SetForwardingPipelineConfig. only_tac.
  - intros e h. by apply only_handlers.
Qed.

(** C5 (defect of the code). The read-back does not read the tables that
    were written: whatever the run, the dump is only ever asked for
    [MyIngress.ipv4_route], [MyIngress.arp_table_entry] and
    [MyIngress.mac_table_entry], so the written tables [MyIngress.arp_table]
    and [MyIngress.dmac_forward] are never dumped; on a one-record file with
    a schema that knows the written tables, the second dump fails on the
    unknown name. *)
Theorem readback_names_differ_from_written :
  (forall w p4info_file_path bmv2_file_path routing_info,
      Forall (fun n => n ∈ dump_names)
             (dumped (trace (main w p4info_file_path bmv2_file_path routing_info))))
  /\ ("MyIngress.arp_table" ∉ dump_names)
  /\ ("MyIngress.dmac_forward" ∉ dump_names)
  /\ (let tr := trace (main (calm (file_of [line_h1])) "p4info" "bmv2.json" "routes") in
      map table_name (installed tr)
      = ["MyIngress.ipv4_route"; "MyIngress.arp_table"; "MyIngress.dmac_forward"]
      /\ dumped tr = ["MyIngress.ipv4_route"; "MyIngress.arp_table_entry"]
      /\ result (main (calm (file_of [line_h1])) "p4info" "bmv2.json" "routes")
         = Raise (OtherException "AttributeError")).
Proof.
  split.
  { intros w p4 b ri.
    destruct (only_main_dump_names w p4 b ri init) as (evs & E & H).
    unfold trace, run. destruct (main w p4 b ri init) as [r s]. simpl in *.
    rewrite E. clear E. induction H as [| e evs He _ IH]; [constructor |].
    change (e :: evs) with ([e] ++ evs). rewrite dumped_app.
    apply Forall_app. split; [| exact IH].
    destruct e; try constructor; simpl in He.
    - by apply bool_decide_eq_true in He.
    - constructor. }
  split; [apply (bool_decide_unpack _); by vm_compute |].
  split; [apply (bool_decide_unpack _); by vm_compute |].
  split; [by vm_compute |]. split; by vm_compute.
Qed.

(** ** Arbitration comes first (C6) *)

(** What follows the arbitration inside the [try] block, lines 66-123. *)
Definition after_arbitration (w : World) (bmv2_file_path routing_info : string) : M unit :=
  SetForwardingPipelineConfig w bmv2_file_path ;;;
  print ("Installed P4 Program using SetForwardingPipelineConfig on " +:+ "s1") ;;;
  install w routing_info ;;;
  print_table_entries w "MyIngress.ipv4_route" ;;;
  print_table_entries w "MyIngress.arp_table_entry" ;;;
  print_table_entries w "MyIngress.mac_table_entry".

Lemma try_body_unfold w b ri :
  try_body w b ri
  = (Bmv2SwitchConnection w "s1" "127.0.0.1:50051" 0 ;;;
     MasterArbitrationUpdate w ;;; after_arbitration w b ri).
Proof. reflexivity. Qed.

Lemma only_after_arbitration w b ri : only any_event (after_arbitration w b ri).
Proof.
  unfold after_arbitration. only_tac.
  all: try (apply only_install; reflexivity).
  all: try (apply only_print_table_entries; reflexivity).
  unfold SetForwardingPipelineConfig. only_tac.
Qed.

Definition no_session_op (e : event) : bool := negb (session_op e).

(** The shape of every trace of [main]: either it holds no operation that
    needs mastership, or the arbitration returned and its request is the
    third event, after the helper and the connection. *)
Definition arbitration_shape (w : World) (p4 : string) (evs : list event) : Prop :=
  Forall (fun e => no_session_op e = true) evs \/
  (MasterArbitrationUpdate_r w = None /\
   exists rest, evs = EvP4InfoHelper p4
                      :: EvBmv2SwitchConnection "s1" "127.0.0.1:50051" 0
                      :: EvMasterArbitrationUpdate :: rest).

Lemma post_main_arbitration w p4 b ri s :
  post (main w p4 b ri) s (fun _ evs => arbitration_shape w p4 evs).
Proof.
  unfold main, arbitration_shape. apply post_bind. unfold P4InfoHelper.
  apply post_call. destruct (P4InfoHelper_r w p4); [left; by repeat constructor |].
  intros s1 _. apply post_bind, post_try_except. rewrite try_body_unfold.
  apply post_bind, post_Bmv2SwitchConnection.
  destruct (Bmv2SwitchConnection_r w) as [e |].
  { destruct e; simpl; try (left; by repeat constructor);
      intros s2 _; apply post_emit; intros s3 _;
      apply post_ShutdownAllSwitchConnections; left; by repeat constructor. }
  intros s2 _. apply post_bind. unfold MasterArbitrationUpdate. apply post_call.
  destruct (MasterArbitrationUpdate_r w) as [e |] eqn:EA.
  { destruct e; simpl; try (left; by repeat constructor);
      intros s3 _; apply post_emit; intros s4 _;
      apply post_ShutdownAllSwitchConnections; left; by repeat constructor. }
  intros s3 _. eapply post_conseq; [apply only_after_arbitration |].
  intros r evs _. destruct r as [[] | e].
  - intros s4 _. apply post_ShutdownAllSwitchConnections.
    right. split; [done |]. eexists. simpl. reflexivity.
  - destruct e; simpl; try (right; split; [done |]; eexists; simpl; reflexivity);
      intros s4 _; apply post_emit; intros s5 _;
      apply post_ShutdownAllSwitchConnections;
      right; (split; [done |]); eexists; simpl; reflexivity.
Qed.

(** C6. In every run the arbitration request is issued, and has returned,
    before the configuration push and before any table write or table
    read: each such operation in the trace has the arbitration event
    somewhere before it. *)
Theorem arbitration_precedes_session_operations :
  forall w p4info_file_path bmv2_file_path routing_info pre e post,
    trace (main w p4info_file_path bmv2_file_path routing_info) = pre ++ e :: post ->
    session_op e = true ->
    EvMasterArbitrationUpdate ∈ pre /\ MasterArbitrationUpdate_r w = None.
Proof.
  intros w p4 b ri pre e post Htr He.
  destruct (post_main_arbitration w p4 b ri init) as (evs & E & H).
  unfold trace, run in Htr. destruct (main w p4 b ri init) as [r s].
  simpl in *. rewrite E in Htr. subst evs.
  destruct H as [H | (HA & rest & H)].
  - apply Forall_app in H as [_ H]. apply Forall_cons in H as [H _].
    unfold no_session_op in H. rewrite He in H. discriminate.
  - split; [| exact HA].
    destruct pre as [| p1 [| p2 [| p3 pre]]]; simpl in H; inversion H; subst;
      try discriminate.
    do 2 apply list_elem_of_further. apply list_elem_of_here.
Qed.

Lemma arbitration_precedes_session_operations_witness :
  EvMasterArbitrationUpdate
    ∈ [EvP4InfoHelper "p4info"; EvBmv2SwitchConnection "s1" "127.0.0.1:50051" 0;
       EvMasterArbitrationUpdate]
  /\ MasterArbitrationUpdate_r (calm (file_of [line_h1])) = None.
Proof.
  apply (arbitration_precedes_session_operations
           (calm (file_of [line_h1])) "p4info" "bmv2.json" "routes"
           [EvP4InfoHelper "p4info"; EvBmv2SwitchConnection "s1" "127.0.0.1:50051" 0;
            EvMasterArbitrationUpdate]
           (EvSetForwardingPipelineConfig "bmv2.json")
           (drop 4 (trace (main (calm (file_of [line_h1]))
                                "p4info" "bmv2.json" "routes")))).
  - vm_compute. reflexivity.
  - reflexivity.
Defined.

(** ** Errors and shutdown (C7, C10) *)

(** The state in which the [try] block is entered in a fresh process. *)
Definition started (p4info_file_path : string) : state :=
  {| out := [EvP4InfoHelper p4info_file_path]; connections := [] |}.

Lemma main_after_helper w p4 b ri :
  P4InfoHelper_r w p4 = None ->
  main w p4 b ri init
  = (try_except (try_body w b ri) handlers ;;; ShutdownAllSwitchConnections)
      (started p4).
Proof.
  intros EH. unfold main, P4InfoHelper.
  unfold bind at 1 2. unfold emit, check. rewrite EH. reflexivity.
Qed.

Lemma script_runs_main w args s :
  path_exists w (p4info args) = true ->
  path_exists w (bmv2_json args) = true ->
  path_exists w (routing_info_arg args) = true ->
  script w args s = main w (p4info args) (bmv2_json args) (routing_info_arg args) s.
Proof. intros H1 H2 H3. unfold script. rewrite H1, H2, H3. reflexivity. Qed.

(** C7. When a gRPC error comes out of the [try] block (session set-up,
    configuration push, install loop or read-back), the process prints the
    diagnostic for it, shuts the connections down and ends with exit code 0:
    the error is not raised again. *)
Theorem rpc_error_is_swallowed :
  forall w args detail,
    path_exists w (p4info args) = true ->
    path_exists w (bmv2_json args) = true ->
    path_exists w (routing_info_arg args) = true ->
    P4InfoHelper_r w (p4info args) = None ->
    (try_body w (bmv2_json args) (routing_info_arg args) (started (p4info args))).1
    = Raise (RpcError detail) ->
    terminate (result (script w args)) = ExitCode 0 /\
    exists tr, trace (script w args)
               = tr ++ [EvPrintGrpcError (RpcError detail); EvShutdown].
Proof.
  intros w args detail H1 H2 H3 EH Hb.
  unfold result, trace, run.
  rewrite (script_runs_main w args init H1 H2 H3), (main_after_helper _ _ _ _ EH).
  unfold bind, try_except.
  destruct (try_body w (bmv2_json args) (routing_info_arg args) (started (p4info args)))
    as [rb sb]. simpl in Hb. subst rb. simpl.
  split; [reflexivity |]. exists (out sb). by rewrite <- app_assoc.
Qed.

(** A world in which the switch refuses the second write with a gRPC
    error. *)
Definition rejecting (text : string) : World :=
  lab_world (fun _ => true) None (Ret text) (fun _ => None)
            (fun h _ => match writes h with
                        | [] => None
                        | _ => Some (RpcError "ALREADY_EXISTS")
                        end)
            (fun _ => []).

Definition args_h1 : Args :=
  {| p4info := "p4info"; bmv2_json := "bmv2.json"; routing_info_arg := "routes" |}.

Lemma rpc_error_is_swallowed_witness :
  terminate (result (script (rejecting (file_of [line_h1])) args_h1)) = ExitCode 0 /\
  exists tr, trace (script (rejecting (file_of [line_h1])) args_h1)
             = tr ++ [EvPrintGrpcError (RpcError "ALREADY_EXISTS"); EvShutdown].
Proof.
  apply (rpc_error_is_swallowed (rejecting (file_of [line_h1])) args_h1
           "ALREADY_EXISTS"); reflexivity.
Defined.

Example rpc_error_leaves_one_entry :
  installed (trace (script (rejecting (file_of [line_h1])) args_h1))
  = [routing_table_entry record_h1].
Proof. by vm_compute. Qed.

(** A world in which the connection cannot be set up. *)
Definition unreachable : World :=
  lab_world (fun _ => true) (Some (RpcError "UNAVAILABLE")) (Ret EmptyString)
            (fun _ => None) (fun _ _ => None) (fun _ => []).

(** An error that is neither a keyboard interrupt nor a gRPC error leaves
    [main] before the shutdown. *)
Example malformed_line_skips_shutdown :
  let tr := trace (main (calm (file_of [line_four])) "p4info" "bmv2.json" "routes") in
  result (main (calm (file_of [line_four])) "p4info" "bmv2.json" "routes")
  = Raise IndexError /\ EvShutdown ∉ tr.
Proof.
  split; [by vm_compute |]. apply (bool_decide_unpack _). by vm_compute.
Qed.

(** C10. When the routing-info path does not exist while the p4info and
    BMv2 JSON files do, the script prints the usage, then a message that
    names the BMv2 JSON file and its path (not the routing-info path), and
    exits with code 1. *)
Theorem missing_routing_info_names_bmv2_json :
  forall w args,
    path_exists w (p4info args) = true ->
    path_exists w (bmv2_json args) = true ->
    path_exists w (routing_info_arg args) = false ->
    trace (script w args)
    = [EvPrintHelp;
       EvPrint ((String Py.nl ("BMv2 JSON file not found: " +:+ bmv2_json args)
                 +:+ String Py.nl "Have you run 'make'?")
                +:+ String Py.nl EmptyString)]
    /\ terminate (result (script w args)) = ExitCode 1.
Proof.
  intros w args H1 H2 H3. unfold trace, result, run, script.
  rewrite H1, H2, H3. simpl. split; [| reflexivity].
  reflexivity.
Qed.

(** A world in which the routing-info file is missing. *)
Definition nowhere : World :=
  lab_world (fun p => negb (String.eqb p "routes")) None
            (Raise (OtherException "FileNotFoundError"))
            (fun _ => None) (fun _ _ => None) (fun _ => []).

Lemma missing_routing_info_names_bmv2_json_witness :
  trace (script nowhere args_h1)
  = [EvPrintHelp;
     EvPrint ((String Py.nl ("BMv2 JSON file not found: " +:+ "bmv2.json")
               +:+ String Py.nl "Have you run 'make'?")
              +:+ String Py.nl EmptyString)]
  /\ terminate (result (script nowhere args_h1)) = ExitCode 1.
Proof.
  apply (missing_routing_info_names_bmv2_json nowhere args_h1); reflexivity.
Defined.

(** ** The dump (C9) *)

Lemma append_assoc (a b c : string) : (a +:+ b) +:+ c = a +:+ (b +:+ c).
Proof.
  induction a as [| x a IH]; [reflexivity |].
  change (String x ((a +:+ b) +:+ c) = String x (a +:+ (b +:+ c))).
  by rewrite IH.
Qed.

Lemma join_app l1 l2 : join (l1 ++ l2) = join l1 +:+ join l2.
Proof.
  induction l1 as [| x l1 IH]; [reflexivity |].
  change (join ((x :: l1) ++ l2)) with (x +:+ join (l1 ++ l2)).
  change (join (x :: l1)) with (x +:+ join l1).
  by rewrite IH, append_assoc.
Qed.

Lemma stdout_app a b : stdout (a ++ b) = stdout a +:+ stdout b.
Proof. unfold stdout. by rewrite omap_app, join_app. Qed.

Lemma append_nil_r (a : string) : a +:+ EmptyString = a.
Proof.
  induction a as [| x a IH]; [reflexivity |].
  change (String x (a +:+ EmptyString) = String x a). by rewrite IH.
Qed.

Lemma stdout_cons_print t evs : stdout (EvPrint t :: evs) = t +:+ stdout evs.
Proof. reflexivity. Qed.

Lemma stdout_print t : stdout [EvPrint t] = t.
Proof. rewrite stdout_cons_print. apply append_nil_r. Qed.

Definition ret_or {A} (d : A) (r : res A) : A :=
  match r with
  | Ret a => a
  | Raise _ => d
  end.

Definition is_Ret {A} (r : res A) : Prop := exists a, r = Ret a.

(** What [print_table_entries] writes for one match, one parameter and one
    whole entry when the name lookups succeed. *)
Definition match_text (w : World) (table_name : string) (m : FieldMatch) : string :=
  (ret_or EmptyString (get_match_field_name_r w table_name (field_id m))
   +:+ ":" +:+ Py.hex (exact_value m)) +:+ " ".

Definition param_text (w : World) (action_name : string) (p : Param) : string :=
  (ret_or EmptyString (get_action_param_name_r w action_name (param_id p))
   +:+ ":" +:+ Py.hex (param_value p)) +:+ " ".

Definition entry_text (w : World) (table_name : string) (te : TableEntry) : string :=
  let action_name := ret_or EmptyString (get_actions_name_r w (te_action_id te)) in
  join (map (match_text w table_name) (te_match te))
  +:+ (("| " +:+ action_name +:+ " |") +:+ " ")
  +:+ join (map (param_text w action_name) (te_params te))
  +:+ String Py.nl EmptyString.

Definition names_known (w : World) (table_name : string) (te : TableEntry) : Prop :=
  Forall (fun m => is_Ret (get_match_field_name_r w table_name (field_id m)))
         (te_match te) /\
  is_Ret (get_actions_name_r w (te_action_id te)) /\
  Forall (fun p => is_Ret (get_action_param_name_r w
                     (ret_or EmptyString (get_actions_name_r w (te_action_id te)))
                     (param_id p)))
         (te_params te).

Lemma post_print_matches w tn ms s :
  Forall (fun m => is_Ret (get_match_field_name_r w tn (field_id m))) ms ->
  post (for_each (print_match w tn) ms) s
       (fun r evs => r = Ret tt /\ stdout evs = join (map (match_text w tn) ms)).
Proof.
  intros H. revert s. induction H as [| m ms [n Hn] _ IH]; intros s; simpl.
  - by apply post_ret.
  - apply post_bind. unfold print_match. apply post_bind, post_lift.
    rewrite Hn. intros s1 _. apply post_emit. intros s2 _.
    eapply post_conseq; [apply IH |]. intros r evs [-> E].
    split; [done |]. simpl. rewrite stdout_cons_print, E.
    unfold match_text. by rewrite Hn.
Qed.

Lemma post_print_params w an ps s :
  Forall (fun p => is_Ret (get_action_param_name_r w an (param_id p))) ps ->
  post (for_each (print_param w an) ps) s
       (fun r evs => r = Ret tt /\ stdout evs = join (map (param_text w an) ps)).
Proof.
  intros H. revert s. induction H as [| p ps [n Hn] _ IH]; intros s; simpl.
  - by apply post_ret.
  - apply post_bind. unfold print_param. apply post_bind, post_lift.
    rewrite Hn. intros s1 _. apply post_emit. intros s2 _.
    eapply post_conseq; [apply IH |]. intros r evs [-> E].
    split; [done |]. simpl. rewrite stdout_cons_print, E.
    unfold param_text. by rewrite Hn.
Qed.

(** The line printed for an entry: for each match its name, a colon and
    the hexadecimal form of [match.exact.value], then the action name
    between bars, then the parameters in the same form. *)
Lemma print_entity_stdout w tn te s :
  names_known w tn te ->
  (print_entity w tn te s).1 = Ret tt /\
  stdout (emitted (print_entity w tn te) s) = entry_text w tn te.
Proof.
  intros (Hm & [an Ha] & Hp). rewrite Ha in Hp. simpl in Hp.
  apply (post_emitted (print_entity w tn te) s
           (fun r evs => r = Ret tt /\ stdout evs = entry_text w tn te)).
  unfold print_entity, entry_text. rewrite Ha. simpl ret_or.
  apply post_bind. eapply post_conseq; [apply (post_print_matches _ _ _ _ Hm) |].
  intros r evs [-> E]. intros s1 _.
  apply post_bind, post_lift. intros s2 _.
  apply post_bind, post_emit. intros s3 _.
  apply post_bind. eapply post_conseq; [apply (post_print_params _ _ _ _ Hp) |].
  intros r2 evs2 [-> E2]. intros s4 _.
  apply post_emit. split; [done |].
  rewrite !stdout_app, !stdout_print, E, E2. reflexivity.
Qed.

(** The route entry of [line_h1] as the switch returns it: a prefix match
    on 10.0.1.0/24 and the next hop 10.0.1.1; and its ARP entry, an exact
    match. *)
Definition route_match : FieldMatch :=
  {| field_id := 1;
     field_match_type := LPM [Byte.x0a; Byte.x00; Byte.x01; Byte.x00] 24 |}.

Definition route_readback : TableEntry :=
  {| te_table_id := 1;
     te_match := [route_match];
     te_action_id := 1;
     te_params := [ {| param_id := 1;
                       param_value := [Byte.x0a; Byte.x00; Byte.x01; Byte.x01] |} ] |}.

Definition arp_readback : TableEntry :=
  {| te_table_id := 2;
     te_match := [ {| field_id := 1;
                      field_match_type :=
                        Exact [Byte.x0a; Byte.x00; Byte.x01; Byte.x01] |} ];
     te_action_id := 2;
     te_params := [ {| param_id := 1;
                       param_value := [Byte.x08; Byte.x00; Byte.x00; Byte.x00;
                                       Byte.x01; Byte.x11] |} ] |}.

(** A world whose route table reads back the entry written for [line_h1]. *)
Definition reading : World :=
  lab_world (fun _ => true) None (Ret (file_of [line_h1])) (fun _ => None)
            (fun _ _ => None)
            (fun id => if Z.eqb id 1 then [ {| entities := [route_readback] |} ]
                       else if Z.eqb id 2 then [ {| entities := [arp_readback] |} ]
                       else []).

Example dump_of_exact_entry :
  stdout (emitted (print_entity reading "MyIngress.arp_table" arp_readback) init)
  = "meta.next_hop:0a000101 | MyIngress.change_dst_mac | dst_mac:080000000111 "
    +:+ String Py.nl EmptyString.
Proof. reflexivity. Qed.

(** C9 (defect of the code). The dump prints [match.exact.value] for every
    match, so the value of a prefix match, which the route table written by
    this very program holds, is not printed: the line for the route entry
    10.0.1.0/24 shows the field name followed by an empty value, though the
    wire bytes of the match are [0a000100]. Names and parameter values are
    printed as claimed. *)
Theorem dump_omits_prefix_match_value :
  names_known reading "MyIngress.ipv4_route" route_readback /\
  stdout (emitted (print_entity reading "MyIngress.ipv4_route" route_readback) init)
  = "hdr.ipv4.dst_ipAddr: | MyIngress.forward_to_next_hop | next_hop:0a000101 "
    +:+ String Py.nl EmptyString /\
  Py.hex (wire_value route_match) = "0a000100" /\
  Py.hex (exact_value route_match) = EmptyString /\
  stdout (emitted (print_table_entries reading "MyIngress.ipv4_route") init)
  = dashes +:+ String Py.nl
      ("Table Entries of MyIngress.ipv4_route" +:+ String Py.nl
      ("match_field: value | action | action_param: value" +:+ String Py.nl
      ("hdr.ipv4.dst_ipAddr: | MyIngress.forward_to_next_hop | next_hop:0a000101 "
       +:+ String Py.nl (dashes +:+ String Py.nl EmptyString)))).
Proof.
  split.
  { repeat split; repeat constructor; by eexists. }
  split; [reflexivity |]. split; [reflexivity |]. split; reflexivity.
Qed.

(** * Further properties of the controller *)

(** ** The trace of a run, part by part *)

(** The events of the set-up, lines 26-71, when it goes through. *)
Definition setup_events (bmv2_file_path routing_info : string) : list event :=
  [EvBmv2SwitchConnection "s1" "127.0.0.1:50051" 0;
   EvMasterArbitrationUpdate;
   EvSetForwardingPipelineConfig bmv2_file_path;
   EvPrint (("Installed P4 Program using SetForwardingPipelineConfig on " +:+ "s1")
            +:+ String Py.nl "");
   EvOpen routing_info].

(** The events [print_table_entries] can emit. *)
Definition dump_event (e : event) : bool :=
  match e with
  | EvPrint _ | EvGetTablesId _ | EvReadTableEntries _ => true
  | _ => false
  end.

(** The events the loop body can emit. *)
Definition loop_event (e : event) : bool :=
  match e with
  | EvPrint _ | EvBuildTableEntry _ | EvWriteTableEntry _ _ => true
  | _ => false
  end.

(** The events the [try] block can emit. *)
Definition body_event (e : event) : bool :=
  match e with
  | EvP4InfoHelper _ | EvPrintHelp | EvPrintGrpcError _ | EvShutdown => false
  | _ => true
  end.

Lemma only_print_table_entries_dump w name : only dump_event (print_table_entries w name).
Proof.
  unfold print_table_entries, print_entity, print_match, print_param, get_tables_id.
  only_tac.
Qed.

Lemma only_install_line_loop w line : only loop_event (install_line w line).
Proof. unfold install_line, buildTableEntry, WriteTableEntry. only_tac. Qed.

Lemma only_try_body_events w b ri : only body_event (try_body w b ri).
Proof.
  unfold try_body. only_tac.
  - unfold Bmv2SwitchConnection. only_tac. apply only_register.
  - unfold MasterArbitrationUpdate. only_tac.
  - unfold SetForwardingPipelineConfig. only_tac.
  - unfold install. only_tac.
    apply (only_weaken loop_event); [by intros [] | apply only_install_line_loop].
  - apply (only_weaken dump_event); [by intros [] | apply only_print_table_entries_dump].
  - apply (only_weaken dump_event); [by intros [] | apply only_print_table_entries_dump].
  - apply (only_weaken dump_event); [by intros [] | apply only_print_table_entries_dump].
Qed.

(** A computation seen from the state it starts in: its result and the
    events it adds. *)
Lemma post_self {A} (m : M A) s :
  post m s (fun _ _ => True) ->
  post m s (fun r evs => r = (m s).1 /\ evs = emitted m s).
Proof.
  intros (evs & E & _). exists evs. split; [done |]. split; [done |].
  unfold emitted. by rewrite E, drop_app_length.
Qed.

Lemma post_true P {A} (m : M A) s : only P m -> post m s (fun _ _ => True).
Proof. intros H. eapply post_conseq; [apply H | done]. Qed.

(** The [try] block, exactly: either the set-up stops early, having emitted
    an initial segment of its events, or the trace is the set-up, then the
    loop, then the dump. *)
Definition body_exact (w : World) (b ri : string) (s : state) (r : res unit)
    (evs : list event) : Prop :=
  (r <> Ret tt /\ evs `prefix_of` setup_events b ri /\
   (~ setup_ok w \/ exists e, open_r w ri = Raise e))
  \/
  (setup_ok w /\
   exists text s1 devs,
     open_r w ri = Ret text /\
     out s1 = out s ++ setup_events b ri /\
     evs = setup_events b ri
           ++ emitted (for_each (install_line w) (Py.readlines text)) s1 ++ devs /\
     Forall (fun e => dump_event e = true) devs /\
     ((for_each (install_line w) (Py.readlines text) s1).1 <> Ret tt ->
      devs = [] /\ r = (for_each (install_line w) (Py.readlines text) s1).1)).

Lemma post_try_body_exact w b ri s :
  post (try_body w b ri) s (body_exact w b ri s).
Proof.
  unfold try_body, body_exact.
  apply post_bind, post_Bmv2SwitchConnection.
  destruct (Bmv2SwitchConnection_r w) eqn:EC.
  { left. split; [discriminate |]. split; [unfold setup_events; by eexists |].
    left. intros (H & _). congruence. }
  intros s1 Hs1. apply post_bind, post_call.
  destruct (MasterArbitrationUpdate_r w) eqn:EA.
  { left. split; [discriminate |]. split; [unfold setup_events; by eexists |].
    left. intros (_ & H & _). congruence. }
  intros s2 Hs2. apply post_bind, post_call.
  destruct (SetForwardingPipelineConfig_r w) eqn:EF.
  { left. split; [discriminate |]. split; [unfold setup_events; by eexists |].
    left. intros (_ & _ & H). congruence. }
  intros s3 Hs3. apply post_bind, post_emit.
  intros s4 Hs4. apply post_bind. unfold install.
  apply post_bind, post_emit.
  intros s5 Hs5. apply post_bind, post_lift.
  destruct (open_r w ri) as [text | e] eqn:EO.
  2: { left. split; [discriminate |]. split; [unfold setup_events; by eexists |]. right. by exists e. }
  intros s6 Hs6. eapply post_conseq.
  { apply post_self. apply (post_true loop_event).
    apply only_for_each. intros line. apply only_install_line_loop. }
  intros r ievs [-> ->].
  assert (Hout : out s6 = out s ++ setup_events b ri).
  { rewrite Hs6, Hs5, Hs4, Hs3, Hs2, Hs1. unfold setup_events.
    rewrite app_nil_r, <- !app_assoc. reflexivity. }
  destruct ((for_each (install_line w) (Py.readlines text) s6).1) as [[] | e] eqn:ER.
  - intros s7 _. eapply post_conseq.
    { apply (only_bind dump_event); [| intros _; apply only_bind; [| intros _]];
        apply only_print_table_entries_dump. }
    intros r' devs HD. simpl in HD. right. split; [done |].
    exists text, s6, devs.
    split; [done |]. split; [done |].
    split; [unfold setup_events; simpl; by rewrite <- ?app_assoc |].
    split; [done |]. intros H. by destruct H.
  - right. split; [done |]. exists text, s6, [].
    split; [done |]. split; [done |].
    split; [unfold setup_events; simpl; by rewrite ?app_nil_r |].
    split; [constructor |]. done.
Qed.

(** A whole run of [main] once the helper is built. *)
Lemma main_exact w p4 b ri :
  P4InfoHelper_r w p4 = None ->
  let rb := (try_body w b ri (started p4)).1 in
  let bevs := emitted (try_body w b ri) (started p4) in
  body_exact w b ri (started p4) rb bevs /\
  Forall (fun e => body_event e = true) bevs /\
  trace (main w p4 b ri) = EvP4InfoHelper p4 :: bevs ++ handler_events rb /\
  result (main w p4 b ri) = after_handlers rb.
Proof.
  intros EH rb bevs.
  pose proof (post_emitted _ _ _ (post_try_body_exact w b ri (started p4))) as HB.
  pose proof (post_emitted _ _ _ (only_try_body_events w b ri (started p4))) as HE.
  split; [exact HB |]. split; [exact HE |].
  destruct (only_try_body_events w b ri (started p4)) as (evs & E & _).
  assert (Hb : bevs = evs).
  { subst bevs. unfold emitted. by rewrite E, drop_app_length. }
  unfold result, trace, run. rewrite (main_after_helper _ _ _ _ EH).
  unfold bind, try_except. subst rb. rewrite Hb.
  destruct (try_body w b ri (started p4)) as [rb sb]. simpl in *.
  destruct rb as [[] | []]; simpl; rewrite E; simpl;
    rewrite <- ?app_assoc, ?app_nil_r; by simpl.
Qed.

Lemma body_events_no_shutdown evs :
  Forall (fun e => body_event e = true) evs -> EvShutdown ∉ evs.
Proof.
  intros H Hin. rewrite Forall_forall in H. by specialize (H _ Hin).
Qed.

Lemma main_helper_fails w p4 b ri e :
  P4InfoHelper_r w p4 = Some e ->
  run (main w p4 b ri) = (Raise e, [EvP4InfoHelper p4]).
Proof.
  intros EH. unfold run, main, P4InfoHelper.
  unfold bind at 1 2. unfold emit, check. rewrite EH. reflexivity.
Qed.

Lemma main_raises_without_shutdown w p4 b ri e :
  result (main w p4 b ri) = Raise e -> EvShutdown ∉ trace (main w p4 b ri).
Proof.
  destruct (P4InfoHelper_r w p4) as [x |] eqn:EH.
  { pose proof (main_helper_fails w p4 b ri x EH) as H.
    unfold result, trace. rewrite H. simpl.
    intros _ Hin. apply list_elem_of_singleton in Hin. discriminate. }
  destruct (main_exact w p4 b ri EH) as (_ & HE & -> & ->).
  apply body_events_no_shutdown in HE.
  destruct ((try_body w b ri (started p4)).1) as [[] | []]; simpl;
    try discriminate; intros _; rewrite app_nil_r;
    intros Hin; apply elem_of_cons in Hin as [Hin | Hin]; done.
Qed.

(** ** Shutdown and the ways out of [main] *)

(** X1. [main] returns normally exactly when it has shut the connections
    down: if it returns, the shutdown is the last event and the only one of
    its kind; if it raises, no shutdown has taken place. *)
Theorem shutdown_exactly_when_main_returns :
  forall w p4info_file_path bmv2_file_path routing_info,
    match result (main w p4info_file_path bmv2_file_path routing_info) with
    | Ret _ =>
        exists tr, trace (main w p4info_file_path bmv2_file_path routing_info)
                   = tr ++ [EvShutdown] /\ EvShutdown ∉ tr
    | Raise _ =>
        EvShutdown ∉ trace (main w p4info_file_path bmv2_file_path routing_info)
    end.
Proof.
  intros w p4 b ri.
  destruct (P4InfoHelper_r w p4) as [e |] eqn:EH.
  { pose proof (main_helper_fails w p4 b ri e EH) as H.
    unfold result, trace. rewrite H. simpl.
    intros Hin. apply list_elem_of_singleton in Hin. discriminate. }
  destruct (main_exact w p4 b ri EH) as (_ & HE & -> & ->).
  apply body_events_no_shutdown in HE.
  assert (HH : EvShutdown ∉ EvP4InfoHelper p4
                 :: emitted (try_body w b ri) (started p4)).
  { intros Hin. apply elem_of_cons in Hin as [Hin | Hin]; [discriminate | done]. }
  destruct ((try_body w b ri (started p4)).1) as [[] | []]; simpl;
    rewrite ?app_nil_r; try exact HH.
  - exists (EvP4InfoHelper p4 :: emitted (try_body w b ri) (started p4)).
    split; [reflexivity | exact HH].
  - exists (EvP4InfoHelper p4 :: emitted (try_body w b ri) (started p4)
            ++ [EvPrint (" Shutting down." +:+ String Py.nl "")]).
    split; [simpl; by rewrite <- app_assoc |].
    intros Hin. apply elem_of_cons in Hin as [Hin | Hin]; [discriminate |].
    apply elem_of_app in Hin as [Hin | Hin]; [done |].
    apply list_elem_of_singleton in Hin. discriminate.
  - exists (EvP4InfoHelper p4 :: emitted (try_body w b ri) (started p4)
            ++ [EvPrintGrpcError (RpcError detail)]).
    split; [simpl; by rewrite <- app_assoc |].
    intros Hin. apply elem_of_cons in Hin as [Hin | Hin]; [discriminate |].
    apply elem_of_app in Hin as [Hin | Hin]; [done |].
    apply list_elem_of_singleton in Hin. discriminate.
Qed.


(** X2. The helper is built outside the [try] block: whatever it raises,
    even a keyboard interrupt or a gRPC error, leaves [main] at once; no
    connection is attempted, nothing is printed and nothing is shut
    down. *)
Theorem helper_failure_is_not_handled :
  forall w p4info_file_path bmv2_file_path routing_info e,
    P4InfoHelper_r w p4info_file_path = Some e ->
    result (main w p4info_file_path bmv2_file_path routing_info) = Raise e /\
    trace (main w p4info_file_path bmv2_file_path routing_info)
    = [EvP4InfoHelper p4info_file_path].
Proof.
  intros w p4 b ri e EH. unfold result, trace.
  by rewrite (main_helper_fails w p4 b ri e EH).
Qed.

(** A world in which loading the p4info is interrupted from the keyboard. *)
Definition interrupted_early : World :=
  {| path_exists := fun _ => true;
     P4InfoHelper_r := fun _ => Some KeyboardInterrupt;
     Bmv2SwitchConnection_r := None;
     MasterArbitrationUpdate_r := None;
     SetForwardingPipelineConfig_r := None;
     open_r := fun _ => Ret EmptyString;
     buildTableEntry_r := fun _ => None;
     WriteTableEntry_r := fun _ _ => None;
     get_tables_id_r := schema_tables;
     ReadTableEntries_r := fun _ _ => ([], None);
     get_match_field_name_r := schema_match_field;
     get_actions_name_r := schema_action;
     get_action_param_name_r := schema_param |}.

Lemma helper_failure_is_not_handled_witness :
  result (main interrupted_early "p4info" "bmv2.json" "routes")
  = Raise KeyboardInterrupt /\
  trace (main interrupted_early "p4info" "bmv2.json" "routes")
  = [EvP4InfoHelper "p4info"].
Proof.
  apply (helper_failure_is_not_handled interrupted_early "p4info" "bmv2.json"
           "routes" KeyboardInterrupt).
  reflexivity.
Defined.

(** X3. An exception out of the [try] block that is neither a keyboard
    interrupt nor a gRPC error is raised again by [main] as it is: nothing
    is printed for it and the connections are not shut down. *)
Theorem unhandled_exception_propagates :
  forall w p4info_file_path bmv2_file_path routing_info e,
    P4InfoHelper_r w p4info_file_path = None ->
    (try_body w bmv2_file_path routing_info (started p4info_file_path)).1 = Raise e ->
    handlers e = None ->
    result (main w p4info_file_path bmv2_file_path routing_info) = Raise e /\
    trace (main w p4info_file_path bmv2_file_path routing_info)
    = EvP4InfoHelper p4info_file_path
      :: emitted (try_body w bmv2_file_path routing_info) (started p4info_file_path) /\
    EvShutdown ∉ trace (main w p4info_file_path bmv2_file_path routing_info).
Proof.
  intros w p4 b ri e EH Hb Hh.
  destruct (main_exact w p4 b ri EH) as (_ & HE & -> & ->).
  apply body_events_no_shutdown in HE. rewrite Hb.
  assert (HH : EvShutdown ∉ EvP4InfoHelper p4
                 :: emitted (try_body w b ri) (started p4)).
  { intros Hin. apply elem_of_cons in Hin as [Hin | Hin]; [discriminate | done]. }
  destruct e; simpl in *; try discriminate; by rewrite app_nil_r.
Qed.

Lemma unhandled_exception_propagates_witness :
  result (main (calm (file_of [line_four])) "p4info" "bmv2.json" "routes")
  = Raise IndexError /\
  trace (main (calm (file_of [line_four])) "p4info" "bmv2.json" "routes")
  = EvP4InfoHelper "p4info"
    :: emitted (try_body (calm (file_of [line_four])) "bmv2.json" "routes")
               (started "p4info") /\
  EvShutdown ∉ trace (main (calm (file_of [line_four])) "p4info" "bmv2.json" "routes").
Proof.
  apply (unhandled_exception_propagates (calm (file_of [line_four]))
           "p4info" "bmv2.json" "routes" IndexError); reflexivity.
Defined.

(** X4. A keyboard interrupt inside the [try] block is answered with the
    message [" Shutting down."], then the connections are shut down and the
    script ends with exit code 0. *)
Theorem keyboard_interrupt_shuts_down :
  forall w args,
    path_exists w (p4info args) = true ->
    path_exists w (bmv2_json args) = true ->
    path_exists w (routing_info_arg args) = true ->
    P4InfoHelper_r w (p4info args) = None ->
    (try_body w (bmv2_json args) (routing_info_arg args) (started (p4info args))).1
    = Raise KeyboardInterrupt ->
    terminate (result (script w args)) = ExitCode 0 /\
    exists tr, trace (script w args)
               = tr ++ [EvPrint (" Shutting down." +:+ String Py.nl ""); EvShutdown].
Proof.
  intros w args H1 H2 H3 EH Hb.
  destruct (main_exact w (p4info args) (bmv2_json args) (routing_info_arg args) EH)
    as (_ & _ & Ht & Hr).
  unfold result, trace, run in *.
  rewrite (script_runs_main w args init H1 H2 H3).
  destruct (main w (p4info args) (bmv2_json args) (routing_info_arg args) init)
    as [r s]. simpl in *. subst r. rewrite Ht, !Hb. simpl.
  split; [reflexivity |].
  exists (EvP4InfoHelper (p4info args)
          :: emitted (try_body w (bmv2_json args) (routing_info_arg args))
                     (started (p4info args))).
  reflexivity.
Qed.

(** A world in which the operator interrupts the run while the second
    entry is being written. *)
Definition interrupted (text : string) : World :=
  lab_world (fun _ => true) None (Ret text) (fun _ => None)
            (fun h _ => match writes h with
                        | [] => None
                        | _ => Some KeyboardInterrupt
                        end)
            (fun _ => []).

Lemma keyboard_interrupt_shuts_down_witness :
  terminate (result (script (interrupted (file_of [line_h1])) args_h1)) = ExitCode 0 /\
  exists tr, trace (script (interrupted (file_of [line_h1])) args_h1)
             = tr ++ [EvPrint (" Shutting down." +:+ String Py.nl ""); EvShutdown].
Proof.
  apply (keyboard_interrupt_shuts_down (interrupted (file_of [line_h1])) args_h1);
    reflexivity.
Defined.

(** ** Order of the stages *)

(** Operations on tables: building and writing an entry, looking a table
    up and reading it. *)
Definition table_op (e : event) : bool :=
  match e with
  | EvBuildTableEntry _ | EvWriteTableEntry _ _
  | EvGetTablesId _ | EvReadTableEntries _ => true
  | _ => false
  end.

Lemma omap_none {A B} (f : A -> option B) l :
  Forall (fun x => f x = None) l -> omap f l = [].
Proof.
  induction 1 as [| x l H _ IH]; [reflexivity |].
  change (x :: l) with ([x] ++ l). rewrite omap_app, IH. simpl. by rewrite H.
Qed.

Lemma no_table_op_silent evs :
  Forall (fun e => table_op e = false) evs ->
  builds evs = [] /\ writes evs = [] /\ installed evs = [] /\ dumped evs = [].
Proof.
  intros H. repeat split; apply omap_none; eapply Forall_impl; eauto;
    by intros [| | | | | | ? [] | | | | | |].
Qed.

Lemma dump_events_silent evs :
  Forall (fun e => dump_event e = true) evs ->
  builds evs = [] /\ writes evs = [] /\ installed evs = [].
Proof.
  intros H. repeat split; apply omap_none; eapply Forall_impl; eauto;
    by intros [| | | | | | ? [] | | | | | |].
Qed.

Lemma loop_events_not_readback evs :
  Forall (fun e => loop_event e = true) evs ->
  Forall (fun e => is_readback e = false) evs.
Proof. intros H. eapply Forall_impl; eauto. by intros []. Qed.

Lemma setup_events_no_table_op b ri :
  Forall (fun e => table_op e = false) (setup_events b ri).
Proof. by repeat constructor. Qed.

Lemma handler_events_no_table_op rb :
  Forall (fun e => table_op e = false) (handler_events rb).
Proof. destruct rb as [| []]; by repeat constructor. Qed.

Lemma prefix_Forall {A} (P : A -> Prop) l1 l2 :
  l1 `prefix_of` l2 -> Forall P l2 -> Forall P l1.
Proof. intros [k ->] H. by apply Forall_app in H as [H _]. Qed.

Lemma loop_events_of_loop w lines s :
  Forall (fun e => loop_event e = true)
         (emitted (for_each (install_line w) lines) s).
Proof.
  apply (post_emitted (for_each (install_line w) lines) s
           (fun _ evs => Forall (fun e => loop_event e = true) evs)).
  apply only_for_each. intros line. apply only_install_line_loop.
Qed.

(** X5. No table is touched before the set-up is complete: when a trace of
    [main] holds a build, a write, a table lookup or a table read, the
    helper was built, connection, arbitration and configuration push all
    returned, and the trace starts with these steps, the opening of the
    routing file last. *)
Theorem setup_precedes_table_operations :
  forall w p4info_file_path bmv2_file_path routing_info e,
    e ∈ trace (main w p4info_file_path bmv2_file_path routing_info) ->
    table_op e = true ->
    P4InfoHelper_r w p4info_file_path = None /\ setup_ok w /\
    exists rest,
      trace (main w p4info_file_path bmv2_file_path routing_info)
      = EvP4InfoHelper p4info_file_path
        :: setup_events bmv2_file_path routing_info ++ rest.
Proof.
  intros w p4 b ri e Hin He.
  destruct (P4InfoHelper_r w p4) as [x |] eqn:EH.
  { pose proof (main_helper_fails w p4 b ri x EH) as H.
    unfold trace in Hin. rewrite H in Hin. simpl in Hin.
    apply list_elem_of_singleton in Hin. subst e. discriminate. }
  destruct (main_exact w p4 b ri EH) as (HB & _ & Ht & _).
  rewrite Ht in Hin |- *.
  destruct HB as [(_ & Hpre & _) | (Hs & text & s1 & devs & _ & _ & -> & _)].
  - exfalso.
    assert (HF : Forall (fun e => table_op e = false)
                   (EvP4InfoHelper p4 :: emitted (try_body w b ri) (started p4)
                    ++ handler_events (try_body w b ri (started p4)).1)).
    { constructor; [done |]. apply Forall_app. split.
      - eapply prefix_Forall; [exact Hpre | apply setup_events_no_table_op].
      - apply handler_events_no_table_op. }
    rewrite Forall_forall in HF. specialize (HF e Hin). congruence.
  - split; [done |]. split; [done |]. eexists. by rewrite <- !app_assoc.
Qed.

Lemma setup_precedes_table_operations_witness :
  P4InfoHelper_r (calm (file_of [line_h1])) "p4info" = None /\
  setup_ok (calm (file_of [line_h1])) /\
  exists rest,
    trace (main (calm (file_of [line_h1])) "p4info" "bmv2.json" "routes")
    = EvP4InfoHelper "p4info" :: setup_events "bmv2.json" "routes" ++ rest.
Proof.
  apply (setup_precedes_table_operations (calm (file_of [line_h1]))
           "p4info" "bmv2.json" "routes"
           (EvBuildTableEntry (routing_table_entry record_h1))).
  - apply (bool_decide_unpack _). by vm_compute.
  - reflexivity.
Defined.

(** X6. When the set-up goes through, the file opens, every line parses and
    every entry is accepted, all entries of all lines are installed, three
    per line and in file order, whatever the read-back does afterwards. *)
Theorem install_is_complete :
  forall w p4info_file_path bmv2_file_path routing_info text,
    P4InfoHelper_r w p4info_file_path = None -> setup_ok w ->
    open_r w routing_info = Ret text ->
    Forall parses (Py.readlines text) ->
    Forall (entry_ok w) (planned (Py.readlines text)) ->
    let tr := trace (main w p4info_file_path bmv2_file_path routing_info) in
    installed tr = planned (Py.readlines text) /\
    writes tr = installed tr /\
    length (installed tr) = (3 * length (Py.readlines text))%nat.
Proof.
  intros w p4 b ri text EH Hs EO Hp Hok tr. subst tr.
  destruct (main_summary w ri (fun text => loop_post w (Py.readlines text)) p4 b)
    as [(_ & _ & _ & [H | [H | [e H]]]) | (text' & rl & ievs & _ & _ & EO' & HL & -> & -> & _)];
    try congruence; try done.
  { intros t s _. apply post_install_lines. }
  assert (text' = text) by congruence. subst text'.
  destruct HL as (_ & _ & Hret & Hr). specialize (Hr Hp Hok).
  destruct (Hret Hr) as (-> & -> & _).
  split; [done |]. split; [done |]. by apply planned_length.
Qed.

Lemma install_is_complete_witness :
  let text := file_of [line_h1; line_h2] in
  let tr := trace (main (calm text) "p4info" "bmv2.json" "routes") in
  installed tr = planned (Py.readlines text) /\
  writes tr = installed tr /\
  length (installed tr) = (3 * length (Py.readlines text))%nat.
Proof.
  intros text.
  apply (install_is_complete (calm text) "p4info" "bmv2.json" "routes" text).
  - reflexivity.
  - by repeat split.
  - reflexivity.
  - repeat constructor; by eexists.
  - repeat constructor.
Defined.

(** X7. The read-back starts only after the whole file is installed: when a
    trace of [main] holds a table lookup of the dump, every line of the
    file has parsed and all its entries, three per line, are installed. *)
Theorem readback_only_after_full_install :
  forall w p4info_file_path bmv2_file_path routing_info,
    dumped (trace (main w p4info_file_path bmv2_file_path routing_info)) <> [] ->
    exists text,
      open_r w routing_info = Ret text /\
      Forall parses (Py.readlines text) /\
      installed (trace (main w p4info_file_path bmv2_file_path routing_info))
      = planned (Py.readlines text) /\
      length (installed (trace (main w p4info_file_path bmv2_file_path routing_info)))
      = (3 * length (Py.readlines text))%nat.
Proof.
  intros w p4 b ri Hd.
  destruct (main_summary w ri (fun text => loop_post w (Py.readlines text)) p4 b)
    as [(_ & _ & H & _) | (text & rl & ievs & _ & _ & EO & HL & _ & Hi & Hrl)];
    try done.
  { intros t s _. apply post_install_lines. }
  exists text. split; [done |].
  destruct HL as (_ & _ & Hret & _).
  destruct rl as [[] | e].
  - destruct (Hret eq_refl) as (E & _ & HP).
    split; [done |]. rewrite Hi, E. split; [done |]. by apply planned_length.
  - destruct Hrl as [H _]; [done |]. done.
Qed.

Lemma readback_only_after_full_install_witness :
  exists text,
    open_r (calm (file_of [line_h1])) "routes" = Ret text /\
    Forall parses (Py.readlines text) /\
    installed (trace (main (calm (file_of [line_h1])) "p4info" "bmv2.json" "routes"))
    = planned (Py.readlines text) /\
    length (installed (trace (main (calm (file_of [line_h1]))
                                   "p4info" "bmv2.json" "routes")))
    = (3 * length (Py.readlines text))%nat.
Proof.
  apply (readback_only_after_full_install (calm (file_of [line_h1]))
           "p4info" "bmv2.json" "routes").
  by vm_compute.
Defined.

(** Cutting a list at an element that its first part cannot hold. *)
Lemma split_in_second {A} (P : A -> bool) (l1 l2 pre post : list A) e :
  l1 ++ l2 = pre ++ e :: post ->
  Forall (fun x => P x = false) l1 -> P e = true ->
  exists k, l2 = k ++ e :: post.
Proof.
  revert pre. induction l1 as [| x l1 IH]; intros pre E HF He; simpl in E.
  - by exists pre.
  - apply Forall_cons in HF as [Hx HF].
    destruct pre as [| p pre]; simpl in E; inversion E; subst.
    + congruence.
    + by apply (IH pre).
Qed.

(** X8. Once the read-back has begun, nothing is built or written any
    more: after a table lookup or a table read in a trace of [main] there
    is no build and no write event. *)
Theorem no_write_after_readback :
  forall w p4info_file_path bmv2_file_path routing_info pre e post,
    trace (main w p4info_file_path bmv2_file_path routing_info) = pre ++ e :: post ->
    is_readback e = true ->
    writes post = [] /\ builds post = [].
Proof.
  intros w p4 b ri pre e post Htr He.
  destruct (P4InfoHelper_r w p4) as [x |] eqn:EH.
  { pose proof (main_helper_fails w p4 b ri x EH) as H.
    unfold trace in Htr. rewrite H in Htr. simpl in Htr.
    destruct pre as [| p [| q pre]]; inversion Htr; subst; discriminate. }
  destruct (main_exact w p4 b ri EH) as (HB & _ & Ht & _).
  rewrite Ht in Htr. clear Ht.
  destruct HB as [(_ & Hpre & _) | (Hs & text & s1 & devs & _ & _ & E & Hd & _)].
  - exfalso.
    assert (HF : Forall (fun e => table_op e = false)
                   (EvP4InfoHelper p4 :: emitted (try_body w b ri) (started p4)
                    ++ handler_events (try_body w b ri (started p4)).1)).
    { constructor; [done |]. apply Forall_app. split.
      - eapply prefix_Forall; [exact Hpre | apply setup_events_no_table_op].
      - apply handler_events_no_table_op. }
    rewrite Htr in HF. apply Forall_app in HF as [_ HF].
    apply Forall_cons in HF as [HF _]. by destruct e.
  - rewrite E in Htr.
    set (loop := emitted (for_each (install_line w) (Py.readlines text)) s1) in *.
    set (hevs := handler_events (try_body w b ri (started p4)).1) in *.
    assert (Hsplit : (EvP4InfoHelper p4 :: setup_events b ri ++ loop) ++ (devs ++ hevs)
                     = pre ++ e :: post).
    { rewrite <- Htr. simpl. by rewrite <- !app_assoc. }
    apply (split_in_second is_readback) in Hsplit as [k Hk]; [| | done].
    + assert (HF : Forall (fun e => is_write e = false /\ built e = None) (devs ++ hevs)).
      { apply Forall_app. split.
        - eapply Forall_impl; [exact Hd |]. by intros [].
        - subst hevs. destruct ((try_body w b ri (started p4)).1) as [| []];
            by repeat constructor. }
      rewrite Hk in HF. apply Forall_app in HF as [_ HF].
      apply Forall_cons in HF as [_ HF].
      split; apply omap_none; eapply Forall_impl; eauto.
      * by intros [| | | | | | ? [] | | | | | |] [? ?].
      * by intros x [? ?].
    + constructor; [done |]. apply Forall_app. split.
      * by repeat constructor.
      * apply loop_events_not_readback. apply loop_events_of_loop.
Qed.

Lemma no_write_after_readback_witness :
  writes (drop 19 (trace (main (calm (file_of [line_h1])) "p4info" "bmv2.json" "routes")))
  = [] /\
  builds (drop 19 (trace (main (calm (file_of [line_h1])) "p4info" "bmv2.json" "routes")))
  = [].
Proof.
  apply (no_write_after_readback (calm (file_of [line_h1]))
           "p4info" "bmv2.json" "routes"
           (take 18 (trace (main (calm (file_of [line_h1]))
                                 "p4info" "bmv2.json" "routes")))
           (EvGetTablesId "MyIngress.ipv4_route")).
  - by vm_compute.
  - reflexivity.
Defined.

(** ** Where the written entries come from *)

Lemma planned_elem d lines :
  d ∈ planned lines ->
  exists line r, line ∈ lines /\ parse_line line = Ret r /\ d ∈ derive_entries r.
Proof.
  induction lines as [| l lines IH]; intros H.
  - by apply elem_of_nil in H.
  - destruct (parse_line l) as [r | e] eqn:P.
    + rewrite (planned_cons_ok _ _ _ P) in H. apply elem_of_app in H as [H | H].
      * exists l, r. split; [apply list_elem_of_here | done].
      * destruct (IH H) as (line & r' & Hin & Hp & Hd).
        exists line, r'. split; [by apply list_elem_of_further | done].
    + rewrite (planned_cons_fail _ _ _ P) in H. by apply elem_of_nil in H.
Qed.

(** X9. Every entry [main] writes is one of the three entries of a line of
    the routing file that parses; in particular only the tables
    [MyIngress.ipv4_route], [MyIngress.arp_table] and
    [MyIngress.dmac_forward] are ever written. *)
Theorem written_entries_come_from_the_file :
  forall w p4info_file_path bmv2_file_path routing_info d,
    d ∈ writes (trace (main w p4info_file_path bmv2_file_path routing_info)) ->
    (exists text line r,
       open_r w routing_info = Ret text /\ line ∈ Py.readlines text /\
       parse_line line = Ret r /\ d ∈ derive_entries r) /\
    table_name d
    ∈ ["MyIngress.ipv4_route"; "MyIngress.arp_table"; "MyIngress.dmac_forward"].
Proof.
  intros w p4 b ri d Hd.
  assert (H : exists text line r,
             open_r w ri = Ret text /\ line ∈ Py.readlines text /\
             parse_line line = Ret r /\ d ∈ derive_entries r).
  { destruct (main_summary w ri (fun text => loop_post w (Py.readlines text)) p4 b)
      as [(E & _) | (text & rl & ievs & _ & _ & EO & HL & E & _)].
    - intros t s _. apply post_install_lines.
    - rewrite E in Hd. by apply elem_of_nil in Hd.
    - rewrite E in Hd. destruct HL as ([k Hk] & _).
      assert (Hp : d ∈ planned (Py.readlines text)).
      { rewrite Hk. apply elem_of_app. by left. }
      destruct (planned_elem _ _ Hp) as (line & r & ? & ? & ?).
      by exists text, line, r. }
  split; [exact H |].
  destruct H as (_ & _ & r & _ & _ & _ & Hin).
  unfold derive_entries in Hin.
  repeat (apply elem_of_cons in Hin as [-> | Hin]);
    [| | | by apply elem_of_nil in Hin]; simpl.
  - apply list_elem_of_here.
  - apply list_elem_of_further, list_elem_of_here.
  - do 2 apply list_elem_of_further. apply list_elem_of_here.
Qed.

Lemma written_entries_come_from_the_file_witness :
  (exists text line r,
     open_r (calm (file_of [line_h1])) "routes" = Ret text /\
     line ∈ Py.readlines text /\
     parse_line line = Ret r /\ arp_table_entry record_h1 ∈ derive_entries r) /\
  table_name (arp_table_entry record_h1)
  ∈ ["MyIngress.ipv4_route"; "MyIngress.arp_table"; "MyIngress.dmac_forward"].
Proof.
  apply (written_entries_come_from_the_file (calm (file_of [line_h1]))
           "p4info" "bmv2.json" "routes").
  apply (bool_decide_unpack _). by vm_compute.
Defined.

(** ** Building and writing go in step *)

Lemma builds_app_list a b : builds (a ++ b) = builds a ++ builds b.
Proof. apply omap_app. Qed.


(** The entries built, written and installed so far are the same, except
    that the last entry may have failed to build (built, not written) or
    its write may have been refused (written, not installed). *)
Definition in_step (w : World) (bs ws ins : list Descriptor) : Prop :=
  (bs = ws /\ ws = ins) \/
  (exists d, bs = ws ++ [d] /\ ws = ins /\ buildTableEntry_r w d <> None) \/
  (exists d h, bs = ws /\ ws = ins ++ [d] /\ WriteTableEntry_r w h d <> None).

Lemma in_step_app w l bs ws ins :
  in_step w bs ws ins -> in_step w (l ++ bs) (l ++ ws) (l ++ ins).
Proof.
  intros [[-> ->] | [(d & -> & -> & H) | (d & h & -> & -> & H)]].
  - by left.
  - right. left. exists d. by rewrite app_assoc.
  - right. right. exists d, h. by rewrite app_assoc.
Qed.

Definition step_post (w : World) (r : res unit) (evs : list event) : Prop :=
  in_step w (builds evs) (writes evs) (installed evs) /\
  (r = Ret tt -> builds evs = writes evs /\ writes evs = installed evs).

Lemma post_install_line_step w line s :
  post (install_line w line) s (step_post w).
Proof.
  unfold post, step_post, install_line, buildTableEntry, WriteTableEntry, bind, lift,
    history, print, print_end, emit, check, ret, raise.
  destruct (parse_line line) as [rec | e]; simpl.
  2: { exists []. rewrite app_nil_r. split; [done |]. split; [by left | done]. }
  repeat match goal with
  | |- context [match buildTableEntry_r w ?d with _ => _ end] =>
      destruct (buildTableEntry_r w d) eqn:?; simpl
  | |- context [match WriteTableEntry_r w ?h ?d with _ => _ end] =>
      destruct (WriteTableEntry_r w h d) eqn:?; simpl
  end.
  all: rewrite <- ?app_assoc; simpl; eexists; (split; [reflexivity |]).
  all: unfold writes, installed, builds, in_step; simpl.
  all: split; [| try done].
  all: try (by left).
  all: try (right; left; eexists; split; [reflexivity |]; split; [reflexivity |];
            congruence).
  all: right; right;
       match goal with
       | H : WriteTableEntry_r _ ?h ?d = Some _ |- _ => exists d, h
       end;
       (split; [reflexivity |]); (split; [reflexivity |]); congruence.
Qed.

Lemma post_install_lines_step w lines s :
  post (for_each (install_line w) lines) s (step_post w).
Proof.
  revert s. induction lines as [| l lines IH]; intros s; simpl.
  - apply post_ret. split; [by left | done].
  - apply post_bind. eapply post_conseq; [apply post_install_line_step |].
    intros r evs [Hstep Hret]. destruct r as [[] | e]; [| by split].
    destruct (Hret eq_refl) as [Eb Ew].
    intros s' _. eapply post_conseq; [apply IH |].
    intros r' evs' [Hstep' Hret']. unfold step_post.
    rewrite !builds_app_list, !writes_app, !installed_app, Eb, Ew.
    split; [by apply in_step_app |].
    intros Hr. destruct (Hret' Hr) as [-> ->]. done.
Qed.

(** X10. In every run the entries are built and written in step: each
    entry is written right after it is built and before the next one is
    built, and the first build or write that fails ends the sequence. So the
    lists of entries built, written and installed coincide, except that the
    last entry built may have failed to build, or its write may have been
    refused. *)
Theorem build_and_write_in_step :
  forall w p4info_file_path bmv2_file_path routing_info,
    let tr := trace (main w p4info_file_path bmv2_file_path routing_info) in
    in_step w (builds tr) (writes tr) (installed tr).
Proof.
  intros w p4 b ri tr. subst tr.
  destruct (P4InfoHelper_r w p4) as [x |] eqn:EH.
  { pose proof (main_helper_fails w p4 b ri x EH) as H.
    unfold trace. rewrite H. by left. }
  destruct (main_exact w p4 b ri EH) as (HB & _ & -> & _).
  change (EvP4InfoHelper p4 :: emitted (try_body w b ri) (started p4)
          ++ handler_events (try_body w b ri (started p4)).1)
    with ([EvP4InfoHelper p4] ++ emitted (try_body w b ri) (started p4)
          ++ handler_events (try_body w b ri (started p4)).1).
  destruct (no_table_op_silent _
              (handler_events_no_table_op (try_body w b ri (started p4)).1))
    as (Hb & Hw & Hi & _).
  rewrite !builds_app_list, !writes_app, !installed_app, Hb, Hw, Hi, !app_nil_r.
  simpl.
  destruct HB as [(_ & Hpre & _) | (Hs & text & s1 & devs & _ & _ & -> & Hd & _)].
  - destruct (no_table_op_silent _
                (prefix_Forall _ _ _ Hpre (setup_events_no_table_op b ri)))
      as (-> & -> & -> & _).
    by left.
  - destruct (dump_events_silent _ Hd) as (Hb' & Hw' & Hi').
    destruct (no_table_op_silent _ (setup_events_no_table_op b ri))
      as (Hb0 & Hw0 & Hi0 & _).
    rewrite !builds_app_list, !writes_app, !installed_app,
      Hb', Hw', Hi', Hb0, Hw0, Hi0, !app_nil_r.
    simpl.
    apply (post_emitted _ _ _ (post_install_lines_step w (Py.readlines text) s1)).
Qed.

Example refused_write_is_the_last :
  let tr := trace (main (rejecting (file_of [line_h1; line_h2]))
                        "p4info" "bmv2.json" "routes") in
  builds tr = writes tr /\
  writes tr = installed tr ++ [arp_table_entry record_h1].
Proof. split; by vm_compute. Qed.

(** ** The script's checks *)

(** X11. The script calls [main] only when all three files exist. When one
    is missing it prints the usage and one message, for the first missing
    file in the order p4info, BMv2 JSON, routing info, touches no
    collaborator and exits with code 1. The message names the p4info path
    when the p4info file is missing and the BMv2 JSON path otherwise. *)
Theorem script_stops_on_missing_file :
  forall w args,
    (path_exists w (p4info args) && path_exists w (bmv2_json args)
     && path_exists w (routing_info_arg args))%bool = false ->
    terminate (result (script w args)) = ExitCode 1 /\
    trace (script w args)
    = [EvPrintHelp;
       EvPrint ((if path_exists w (p4info args)
                 then String Py.nl ("BMv2 JSON file not found: " +:+ bmv2_json args)
                      +:+ String Py.nl "Have you run 'make'?"
                 else String Py.nl ("p4info file not found: " +:+ p4info args)
                      +:+ String Py.nl "Have you run 'make'?")
                +:+ String Py.nl EmptyString)].
Proof.
  intros w args H. unfold result, trace, run, script.
  destruct (path_exists w (p4info args));
    destruct (path_exists w (bmv2_json args));
    destruct (path_exists w (routing_info_arg args));
    try discriminate; by simpl.
Qed.

(** A world in which neither the p4info nor the routing file exists. *)
Definition two_missing : World :=
  lab_world (fun p => String.eqb p "bmv2.json") None
            (Raise (OtherException "FileNotFoundError"))
            (fun _ => None) (fun _ _ => None) (fun _ => []).

Lemma script_stops_on_missing_file_witness :
  terminate (result (script two_missing args_h1)) = ExitCode 1 /\
  trace (script two_missing args_h1)
  = [EvPrintHelp;
     EvPrint ((String Py.nl ("p4info file not found: " +:+ "p4info")
               +:+ String Py.nl "Have you run 'make'?")
              +:+ String Py.nl EmptyString)].
Proof.
  apply (script_stops_on_missing_file two_missing args_h1). reflexivity.
Defined.

(** ** The dump of a table *)

Definition dump_header (table_name : string) : list event :=
  [EvPrint (dashes +:+ String Py.nl "");
   EvPrint (words ["Table Entries of"; table_name] +:+ String Py.nl "");
   EvPrint ("match_field: value | action | action_param: value" +:+ String Py.nl "")].

(** X12. When the table name is not in the schema, the dump prints its
    three header lines, fails in the lookup with the helper's exception and
    never reads from the switch. *)
Theorem dump_of_unknown_table :
  forall w table_name e s,
    get_tables_id_r w table_name = Raise e ->
    (print_table_entries w table_name s).1 = Raise e /\
    emitted (print_table_entries w table_name) s
    = dump_header table_name ++ [EvGetTablesId table_name].
Proof.
  intros w name e s H.
  apply (post_emitted (print_table_entries w name) s
           (fun r evs => r = Raise e /\
                         evs = dump_header name ++ [EvGetTablesId name])).
  unfold print_table_entries, get_tables_id, print, print_end.
  apply post_bind, post_emit. intros s1 _.
  apply post_bind, post_emit. intros s2 _.
  apply post_bind, post_emit. intros s3 _.
  apply post_bind. apply post_bind, post_emit. intros s4 _.
  apply post_lift. rewrite H. done.
Qed.

Lemma dump_of_unknown_table_witness :
  (print_table_entries (calm EmptyString) "MyIngress.arp_table_entry" init).1
  = Raise (OtherException "AttributeError") /\
  emitted (print_table_entries (calm EmptyString) "MyIngress.arp_table_entry") init
  = dump_header "MyIngress.arp_table_entry"
    ++ [EvGetTablesId "MyIngress.arp_table_entry"].
Proof.
  apply (dump_of_unknown_table (calm EmptyString) "MyIngress.arp_table_entry"
           (OtherException "AttributeError") init).
  reflexivity.
Defined.

Lemma only_print_entity w tn te : only any_event (print_entity w tn te).
Proof. unfold print_entity, print_match, print_param. only_tac. Qed.

Lemma post_print_entities w tn tes s :
  Forall (names_known w tn) tes ->
  post (for_each (print_entity w tn) tes) s
       (fun r evs => r = Ret tt /\ stdout evs = join (map (entry_text w tn) tes)).
Proof.
  intros H. revert s. induction H as [| te tes Hte _ IH]; intros s; simpl.
  - by apply post_ret.
  - apply post_bind.
    destruct (print_entity_stdout w tn te s Hte) as [Hr Hs].
    destruct (only_print_entity w tn te s) as (evs & E & _).
    exists evs. split; [done |]. rewrite Hr. intros s1 _.
    eapply post_conseq; [apply IH |]. intros r evs' [-> E'].
    split; [done |]. rewrite stdout_app, E'. f_equal.
    rewrite <- Hs. unfold emitted. by rewrite E, drop_app_length.
Qed.

Lemma post_print_responses w tn responses s :
  Forall (names_known w tn) (flat_map entities responses) ->
  post (for_each (fun response => for_each (print_entity w tn) (entities response))
                 responses) s
       (fun r evs => r = Ret tt /\
                     stdout evs
                     = join (map (entry_text w tn) (flat_map entities responses))).
Proof.
  revert s. induction responses as [| rsp responses IH]; intros s H; simpl.
  - by apply post_ret.
  - simpl in H. apply Forall_app in H as [H1 H2].
    apply post_bind. eapply post_conseq; [apply (post_print_entities _ _ _ _ H1) |].
    intros r evs [-> E]. intros s1 _.
    eapply post_conseq; [apply (IH _ H2) |]. intros r evs' [-> E'].
    split; [done |]. by rewrite stdout_app, E, E', map_app, join_app.
Qed.

Lemma stdout_dump name id evs tail :
  stdout (dump_header name ++ [EvGetTablesId name; EvReadTableEntries id]
          ++ evs ++ tail)
  = stdout (dump_header name) +:+ stdout evs +:+ stdout tail.
Proof. rewrite !stdout_app. reflexivity. Qed.

(** X13. On a table of the schema the dump prints the three header lines,
    then one line per entity in the order the switch returns them (all
    responses, all entities of each), and closes with a dashed line when the
    read stream ends normally; when the stream ends with an error, the lines
    of the entities received are printed, the closing line is not, and the
    error is raised. *)
Theorem dump_prints_every_entity :
  forall w table_name id responses failure s,
    get_tables_id_r w table_name = Ret id ->
    (forall h, ReadTableEntries_r w h id = (responses, failure)) ->
    Forall (names_known w table_name) (flat_map entities responses) ->
    (print_table_entries w table_name s).1
    = match failure with None => Ret tt | Some e => Raise e end /\
    stdout (emitted (print_table_entries w table_name) s)
    = stdout (dump_header table_name)
      +:+ join (map (entry_text w table_name) (flat_map entities responses))
      +:+ match failure with
          | None => dashes +:+ String Py.nl ""
          | Some _ => EmptyString
          end.
Proof.
  intros w name id responses failure s Hid Hread Hn.
  apply (post_emitted (print_table_entries w name) s
           (fun r evs =>
              r = match failure with None => Ret tt | Some e => Raise e end /\
              stdout evs
              = stdout (dump_header name)
                +:+ join (map (entry_text w name) (flat_map entities responses))
                +:+ match failure with
                    | None => dashes +:+ String Py.nl ""
                    | Some _ => EmptyString
                    end)).
  unfold print_table_entries, get_tables_id, print, print_end.
  apply post_bind, post_emit. intros s1 _.
  apply post_bind, post_emit. intros s2 _.
  apply post_bind, post_emit. intros s3 _.
  apply post_bind. apply post_bind, post_emit. intros s4 _.
  apply post_lift. rewrite Hid. intros s5 _.
  apply post_bind, post_history. intros s6 _.
  apply post_bind, post_emit. intros s7 _.
  rewrite Hread.
  apply post_bind. eapply post_conseq; [apply (post_print_responses _ _ _ _ Hn) |].
  intros r evs [-> E]. intros s8 _.
  apply post_bind, post_check. destruct failure as [e |].
  - split; [done |].
    match goal with
    | |- stdout ?l = _ =>
        replace l with (dump_header name
                        ++ [EvGetTablesId name; EvReadTableEntries id] ++ evs ++ [])
          by (simpl; by rewrite ?app_nil_r)
    end.
    by rewrite stdout_dump, E.
  - intros s9 _. apply post_emit. split; [done |].
    match goal with
    | |- stdout ?l = _ =>
        replace l with (dump_header name
                        ++ [EvGetTablesId name; EvReadTableEntries id] ++ evs
                        ++ [EvPrint (dashes +:+ String Py.nl "")])
          by (simpl; by rewrite ?app_nil_r)
    end.
    by rewrite stdout_dump, E, stdout_print.
Qed.

Lemma dump_prints_every_entity_witness :
  (print_table_entries reading "MyIngress.arp_table" init).1 = Ret tt /\
  stdout (emitted (print_table_entries reading "MyIngress.arp_table") init)
  = stdout (dump_header "MyIngress.arp_table")
    +:+ join (map (entry_text reading "MyIngress.arp_table") [arp_readback])
    +:+ (dashes +:+ String Py.nl "").
Proof.
  apply (dump_prints_every_entity reading "MyIngress.arp_table" 2
           [ {| entities := [arp_readback] |} ] None init).
  - reflexivity.
  - intros h. reflexivity.
  - repeat constructor; by eexists.
Defined.

Example dump_of_empty_table :
  stdout (emitted (print_table_entries (calm EmptyString) "MyIngress.ipv4_route") init)
  = dashes +:+ String Py.nl
      ("Table Entries of MyIngress.ipv4_route" +:+ String Py.nl
      ("match_field: value | action | action_param: value" +:+ String Py.nl
      (dashes +:+ String Py.nl EmptyString))).
Proof. reflexivity. Qed.

(** ** Reading one line *)

Lemma append_cons c (a b : string) : String c a +:+ b = String c (a +:+ b).
Proof. reflexivity. Qed.

Lemma split_nonempty sep s : Py.split sep s <> [].
Proof.
  destruct s as [| c s]; simpl; [done |].
  destruct (Ascii.eqb c sep); [done |]. by destruct (Py.split sep s).
Qed.

(** [c in s] *)
Fixpoint contains (c : ascii) (s : string) : bool :=
  match s with
  | EmptyString => false
  | String x r => (Ascii.eqb x c || contains c r)%bool
  end.

Lemma contains_app c a b :
  contains c (a +:+ b) = (contains c a || contains c b)%bool.
Proof.
  induction a as [| x a IH]; [reflexivity |].
  rewrite append_cons. simpl. rewrite IH. by rewrite orb_assoc.
Qed.

Lemma split_free sep s : contains sep s = false -> Py.split sep s = [s].
Proof.
  induction s as [| c s IH]; simpl; [done |].
  intros H. apply orb_false_elim in H as [Hc Hs]. rewrite Hc.
  by rewrite (IH Hs).
Qed.

(** Cutting at the separator: the pieces of [a + sep + b] are those of [a]
    followed by those of [b]. *)
Lemma split_app_sep sep a b :
  Py.split sep (a +:+ String sep b) = Py.split sep a ++ Py.split sep b.
Proof.
  induction a as [| c a IH].
  - change (EmptyString +:+ String sep b) with (String sep b). simpl.
    by rewrite Ascii.eqb_refl.
  - rewrite append_cons. simpl. destruct (Ascii.eqb c sep).
    + by rewrite IH.
    + rewrite IH. pose proof (split_nonempty sep a) as Hne.
      by destruct (Py.split sep a).
Qed.

(** [sep.join(fields)] *)
Definition joined (sep : ascii) (fields : list string) : string :=
  String.concat (String sep EmptyString) fields.

Lemma joined_cons sep x y l :
  joined sep (x :: y :: l) = x +:+ String sep (joined sep (y :: l)).
Proof. reflexivity. Qed.

Lemma split_joined sep fields :
  fields <> [] -> Forall (fun f => contains sep f = false) fields ->
  Py.split sep (joined sep fields) = fields.
Proof.
  induction fields as [| x [| y l] IH]; intros Hne HF; [done | |].
  - apply Forall_cons in HF as [Hx _]. by apply split_free.
  - apply Forall_cons in HF as [Hx HF].
    rewrite joined_cons, split_app_sep, (split_free _ _ Hx), IH; done.
Qed.

(** X14. A line made of five comma-separated fields, the first of the form
    prefix/length, parses to exactly these fields: the lengths and the port
    through [int], the three addresses as they stand, whatever they are
    (the addresses are not checked, they may even be empty). *)
Theorem well_formed_line_parses :
  forall p pl a b c ps n port,
    contains ","%char p = false -> contains "/"%char p = false ->
    contains ","%char pl = false -> contains "/"%char pl = false ->
    contains ","%char a = false -> contains ","%char b = false ->
    contains ","%char c = false -> contains ","%char ps = false ->
    Py.int pl = Some n -> Py.int (Py.strip Py.is_nl ps) = Some port ->
    parse_line (joined ","%char [joined "/"%char [p; pl]; a; b; c; ps])
    = Ret {| prefix := p; prefix_len := n; next_hop_ip := a; next_hop_mac := b;
             egress_mac := c; egress_port := port |}.
Proof.
  intros p pl a b c ps n port Hp1 Hp2 Hl1 Hl2 Ha Hb Hc Hs Hn Hport.
  unfold parse_line. rewrite split_joined; [| done |].
  - simpl. rewrite split_joined; [| done | by repeat constructor].
    simpl. unfold to_int. by rewrite Hport, Hn.
  - repeat constructor; try done.
    change (joined "/"%char [p; pl]) with (p +:+ String "/"%char pl).
    rewrite contains_app. simpl. by rewrite Hp1, Hl1.
Qed.

Lemma well_formed_line_parses_witness :
  parse_line (joined ","%char [joined "/"%char ["10.0.1.0"; "24"]; "10.0.1.1";
                               ""; "not a mac"; " 1 "])
  = Ret {| prefix := "10.0.1.0"; prefix_len := 24; next_hop_ip := "10.0.1.1";
           next_hop_mac := ""; egress_mac := "not a mac"; egress_port := 1 |}.
Proof.
  apply (well_formed_line_parses "10.0.1.0" "24" "10.0.1.1" "" "not a mac" " 1 ");
    reflexivity.
Defined.

Lemma parse_line_errors line e :
  parse_line line = Raise e -> e = ValueError \/ e = IndexError.
Proof.
  unfold parse_line, rbind, index, to_int.
  repeat case_match; intros ?; simplify_eq; auto.
Qed.

(** X15. A line with fewer than five comma-separated fields never parses:
    the loop body raises [ValueError] (first field not of the form a/b) or
    [IndexError] (a field is missing) before it prints, builds or writes
    anything. *)
Theorem short_line_does_not_parse :
  forall w line s,
    (length (Py.split ","%char line) < 5)%nat ->
    emitted (install_line w line) s = [] /\
    ((install_line w line s).1 = Raise ValueError \/
     (install_line w line s).1 = Raise IndexError).
Proof.
  intros w line s Hlen.
  assert (Hp : exists e, parse_line line = Raise e).
  { unfold parse_line, rbind, index, to_int.
    destruct (Py.split ","%char line) as [| f0 [| f1 [| f2 [| f3 [| f4 l]]]]];
      simpl in *; try lia; repeat case_match; simplify_eq; eauto. }
  destruct Hp as [e He].
  pose proof (post_emitted _ _ _ (post_install_line w line s)) as H.
  unfold line_post in H. rewrite He in H. destruct H as [-> ->].
  split; [done |]. destruct (parse_line_errors _ _ He) as [-> | ->]; auto.
Qed.

Lemma short_line_does_not_parse_witness :
  emitted (install_line (calm EmptyString) (String Py.nl EmptyString)) init = [] /\
  ((install_line (calm EmptyString) (String Py.nl EmptyString) init).1
   = Raise ValueError \/
   (install_line (calm EmptyString) (String Py.nl EmptyString) init).1
   = Raise IndexError).
Proof.
  apply (short_line_does_not_parse (calm EmptyString) (String Py.nl EmptyString) init).
  simpl. lia.
Defined.

(** X16. Fields after the fifth are ignored: appending a comma and anything
    to a line that has at least five fields does not change what it parses
    to. *)
Theorem extra_fields_are_ignored :
  forall line junk,
    (5 <= length (Py.split ","%char line))%nat ->
    parse_line (line +:+ String ","%char junk) = parse_line line.
Proof.
  intros line junk Hlen. unfold parse_line, index.
  rewrite split_app_sep.
  destruct (Py.split ","%char line) as [| f0 [| f1 [| f2 [| f3 [| f4 l]]]]];
    simpl in Hlen; try lia.
  reflexivity.
Qed.

Lemma extra_fields_are_ignored_witness :
  parse_line (line_h1 +:+ String ","%char "comment, more") = parse_line line_h1.
Proof.
  apply (extra_fields_are_ignored line_h1 "comment, more"). simpl. lia.
Defined.

(** The pieces of a string to which a separator-free tail is appended: the
    tail goes to the last piece. *)
Fixpoint snoc_last (l : list string) (t : string) : list string :=
  match l with
  | [] => [t]
  | [x] => [x +:+ t]
  | x :: r => x :: snoc_last r t
  end.

Lemma snoc_last_cons x l t : l <> [] -> snoc_last (x :: l) t = x :: snoc_last l t.
Proof. by destruct l. Qed.

Lemma split_app_free sep s t :
  contains sep t = false ->
  Py.split sep (s +:+ t) = snoc_last (Py.split sep s) t.
Proof.
  intros Ht. induction s as [| c s IH].
  - change (EmptyString +:+ t) with t. by rewrite split_free.
  - rewrite append_cons. simpl. pose proof (split_nonempty sep s) as Hne.
    destruct (Ascii.eqb c sep).
    + by rewrite IH, snoc_last_cons.
    + rewrite IH. destruct (Py.split sep s) as [| h [| h' tl]]; done.
Qed.

Lemma rstrip_snoc p s c :
  p c = true -> Py.rstrip p (s +:+ String c EmptyString) = Py.rstrip p s.
Proof.
  intros Hc. induction s as [| x s IH].
  - simpl. by rewrite Hc.
  - rewrite append_cons. simpl. by rewrite IH.
Qed.

Lemma lstrip_snoc p s c :
  p c = true ->
  Py.lstrip p (s +:+ String c EmptyString)
  = match Py.lstrip p s with
    | EmptyString => EmptyString
    | r => r +:+ String c EmptyString
    end.
Proof.
  intros Hc. induction s as [| x s IH].
  - simpl. by rewrite Hc.
  - rewrite append_cons. simpl. destruct (p x); [exact IH | reflexivity].
Qed.

(** [strip] removes a trailing character of its set. *)
Lemma strip_snoc p s c :
  p c = true -> Py.strip p (s +:+ String c EmptyString) = Py.strip p s.
Proof.
  intros Hc. unfold Py.strip. rewrite (lstrip_snoc _ _ _ Hc).
  destruct (Py.lstrip p s) as [| x r]; [reflexivity |].
  by apply rstrip_snoc.
Qed.

(** X17. The line terminator does not matter: a line with at least five
    fields parses to the same record with or without the final ["\n"] (the
    last line of a file may lack it). *)
Theorem line_terminator_is_trimmed :
  forall line,
    (5 <= length (Py.split ","%char line))%nat ->
    parse_line (line +:+ String Py.nl EmptyString) = parse_line line.
Proof.
  intros line Hlen. unfold parse_line, index.
  rewrite split_app_free by reflexivity.
  destruct (Py.split ","%char line) as [| f0 [| f1 [| f2 [| f3 [| f4 l]]]]];
    simpl in Hlen; try lia.
  destruct l as [| f5 l]; simpl.
  - rewrite strip_snoc by reflexivity. reflexivity.
  - reflexivity.
Qed.

Lemma line_terminator_is_trimmed_witness :
  parse_line (line_h1 +:+ String Py.nl EmptyString) = parse_line line_h1.
Proof.
  apply (line_terminator_is_trimmed line_h1). simpl. lia.
Defined.

(** ** A line that does not parse ends the run *)

(** X18. When the set-up goes through and everything before line [i]
    installs without error, a line [i] that does not parse ends [main] with
    the [ValueError] or [IndexError] of the parse: the error is not
    handled, the entries of the earlier lines stay installed, nothing is
    read back and the connections are not shut down. *)
Theorem unparsable_line_crashes_main :
  forall w p4info_file_path bmv2_file_path routing_info text i bad e,
    P4InfoHelper_r w p4info_file_path = None -> setup_ok w ->
    open_r w routing_info = Ret text ->
    Py.readlines text !! i = Some bad ->
    parse_line bad = Raise e ->
    Forall parses (take i (Py.readlines text)) ->
    Forall (entry_ok w) (planned (take i (Py.readlines text))) ->
    let tr := trace (main w p4info_file_path bmv2_file_path routing_info) in
    result (main w p4info_file_path bmv2_file_path routing_info) = Raise e /\
    (e = ValueError \/ e = IndexError) /\
    installed tr = planned (take i (Py.readlines text)) /\
    dumped tr = [] /\
    EvShutdown ∉ tr.
Proof.
  intros w p4 b ri text i bad e EH Hs EO Hi Pe Hpb Hokb tr. subst tr.
  set (lines := Py.readlines text) in *.
  assert (Hsplit : take i lines ++ bad :: drop (S i) lines = lines)
    by (by apply take_drop_middle).
  assert (Hres : result (main w p4 b ri) = Raise e /\
                 installed (trace (main w p4 b ri)) = planned (take i lines) /\
                 dumped (trace (main w p4 b ri)) = []).
  { destruct (main_summary w ri (loop_run w) p4 b (loop_run_spec w ri))
      as [(_ & _ & _ & [H | [H | [x H]]]) | (text' & rl & ievs & _ & _ & EO' & (s & -> & ->) & _ & -> & Hrl)];
      try congruence; try done.
    assert (text' = text) by congruence. subst text'. fold lines in Hrl |- *.
    pose proof (post_emitted _ _ _
      (post_install_unparsable w (take i lines) bad e (drop (S i) lines) s
         Hpb Hokb Pe)) as H.
    rewrite Hsplit in H. destruct H as (Hr & Hin & _).
    rewrite Hr in Hrl. destruct Hrl as [Hd ->]; [done |].
    split; [| done].
    destruct (parse_line_errors _ _ Pe) as [-> | ->]; reflexivity. }
  destruct Hres as (Hr & Hin & Hd).
  split; [done |]. split; [by apply (parse_line_errors bad) |].
  split; [done |]. split; [done |].
  by apply (main_raises_without_shutdown w p4 b ri e).
Qed.

Lemma unparsable_line_crashes_main_witness :
  let text := file_of [line_h1; "no slash,a,b,c,1"] in
  let tr := trace (main (calm text) "p4info" "bmv2.json" "routes") in
  result (main (calm text) "p4info" "bmv2.json" "routes") = Raise ValueError /\
  (ValueError = ValueError \/ ValueError = IndexError) /\
  installed tr = planned (take 1 (Py.readlines text)) /\
  dumped tr = [] /\
  EvShutdown ∉ tr.
Proof.
  intros text.
  apply (unparsable_line_crashes_main (calm text) "p4info" "bmv2.json" "routes"
           text 1%nat ("no slash,a,b,c,1" +:+ String Py.nl EmptyString) ValueError).
  - reflexivity.
  - by repeat split.
  - reflexivity.
  - reflexivity.
  - reflexivity.
  - repeat constructor. by exists record_h1.
  - repeat constructor.
Defined.

(** ** Shutdown and every way out of [main] (C8) *)

(** Counterexample to C8: two terminating runs of [main] that never shut
    the connections down. In the first a keyboard interrupt arrives while
    the helper is built on line 20, before the [try] block is entered. In
    the second every call to the switch succeeds and the schema is the
    lab's own: the three entries of the record are installed, the first
    dump is printed, and the second dump asks for a table the schema does
    not have, which is neither a keyboard interrupt nor a gRPC error. *)
Lemma shutdown_skipped_counterexample :
  (result (main interrupted_early "p4info" "bmv2.json" "routes")
   = Raise KeyboardInterrupt /\
   EvShutdown ∉ trace (main interrupted_early "p4info" "bmv2.json" "routes")) /\
  (result (main (calm (file_of [line_h1])) "p4info" "bmv2.json" "routes")
   = Raise (OtherException "AttributeError") /\
   installed (trace (main (calm (file_of [line_h1])) "p4info" "bmv2.json" "routes"))
   = derive_entries record_h1 /\
   dumped (trace (main (calm (file_of [line_h1])) "p4info" "bmv2.json" "routes"))
   = ["MyIngress.ipv4_route"; "MyIngress.arp_table_entry"] /\
   EvShutdown ∉ trace (main (calm (file_of [line_h1])) "p4info" "bmv2.json" "routes")).
Proof.
  split; [split | split; [| split; [| split]]]; try by vm_compute.
  all: apply (bool_decide_unpack _); by vm_compute.
Qed.

(** C8 (corrected). The shutdown on line 130 follows the [try] statement
    and is not in a [finally] clause, and the helper is built before the
    [try] block. So the connections are shut down on exactly these paths:
    the helper was built, and the [try] block ran to its end or was left by
    a keyboard interrupt or a gRPC error, wherever in the block that
    happened (also during connect, arbitration or the configuration push).
    On these paths the shutdown is the last action of [main], takes place
    once, and [main] returns. On every other path, that is an exception
    while the helper is built (a keyboard interrupt or a gRPC error too) or
    any other exception out of the [try] block, [main] ends by raising that
    exception and no shutdown takes place. *)
Theorem shutdown_exactly_on_handled_paths :
  forall w p4info_file_path bmv2_file_path routing_info,
    let r := result (main w p4info_file_path bmv2_file_path routing_info) in
    let tr := trace (main w p4info_file_path bmv2_file_path routing_info) in
    match P4InfoHelper_r w p4info_file_path with
    | Some e => r = Raise e /\ EvShutdown ∉ tr
    | None =>
        match (try_body w bmv2_file_path routing_info (started p4info_file_path)).1 with
        | Ret _ | Raise KeyboardInterrupt | Raise (RpcError _) =>
            r = Ret tt /\ exists tr', tr = tr' ++ [EvShutdown] /\ EvShutdown ∉ tr'
        | Raise e => r = Raise e /\ EvShutdown ∉ tr
        end
    end.
Proof.
  intros w p4 b ri. cbv zeta.
  destruct (P4InfoHelper_r w p4) as [e |] eqn:EH.
  { pose proof (main_helper_fails w p4 b ri e EH) as H.
    unfold result, trace. rewrite H. simpl. split; [reflexivity |].
    intros Hin. apply list_elem_of_singleton in Hin. discriminate. }
  destruct (main_exact w p4 b ri EH) as (_ & HE & -> & ->).
  apply body_events_no_shutdown in HE.
  assert (HH : EvShutdown ∉ EvP4InfoHelper p4
                 :: emitted (try_body w b ri) (started p4)).
  { intros Hin. apply elem_of_cons in Hin as [Hin | Hin]; [discriminate | done]. }
  assert (HS : forall e, e <> EvShutdown ->
                 EvShutdown ∉ EvP4InfoHelper p4
                   :: emitted (try_body w b ri) (started p4) ++ [e]).
  { intros e He Hin. apply elem_of_cons in Hin as [Hin | Hin]; [discriminate |].
    apply elem_of_app in Hin as [Hin | Hin]; [done |].
    apply list_elem_of_singleton in Hin. by apply He. }
  destruct ((try_body w b ri (started p4)).1) as [[] | []]; simpl;
    rewrite ?app_nil_r; (split; [reflexivity |]); try exact HH.
  - exists (EvP4InfoHelper p4 :: emitted (try_body w b ri) (started p4)).
    split; [reflexivity | exact HH].
  - exists (EvP4InfoHelper p4 :: emitted (try_body w b ri) (started p4)
            ++ [EvPrint (" Shutting down." +:+ String Py.nl "")]).
    split; [simpl; by rewrite <- app_assoc | by apply HS].
  - exists (EvP4InfoHelper p4 :: emitted (try_body w b ri) (started p4)
            ++ [EvPrintGrpcError (RpcError detail)]).
    split; [simpl; by rewrite <- app_assoc | by apply HS].
Qed.

(** The three kinds of path at once: a connection that cannot be set up
    (gRPC error inside the [try] block), a keyboard interrupt while the
    helper is built, and a run without any failure of the switch. *)
Lemma shutdown_exactly_on_handled_paths_witness :
  (result (main unreachable "p4info" "bmv2.json" "routes") = Ret tt /\
   exists tr', trace (main unreachable "p4info" "bmv2.json" "routes")
               = tr' ++ [EvShutdown] /\ EvShutdown ∉ tr') /\
  (result (main interrupted_early "p4info" "bmv2.json" "routes")
   = Raise KeyboardInterrupt /\
   EvShutdown ∉ trace (main interrupted_early "p4info" "bmv2.json" "routes")) /\
  (result (main (calm (file_of [line_h1])) "p4info" "bmv2.json" "routes")
   = Raise (OtherException "AttributeError") /\
   EvShutdown ∉ trace (main (calm (file_of [line_h1])) "p4info" "bmv2.json" "routes")).
Proof.
  split; [| split].
  - exact (shutdown_exactly_on_handled_paths unreachable "p4info" "bmv2.json" "routes").
  - exact (shutdown_exactly_on_handled_paths interrupted_early "p4info" "bmv2.json"
             "routes").
  - exact (shutdown_exactly_on_handled_paths (calm (file_of [line_h1])) "p4info"
             "bmv2.json" "routes").
Defined.

(** The paths on which the session was never fully set up are among those
    that reach line 130: when connect, arbitration or the configuration
    push is refused with a gRPC error or interrupted from the keyboard,
    [main] still calls the shutdown, as its last action, and nothing was
    written to the switch. *)
Lemma shutdown_follows_failed_setup w p4 b ri e :
  P4InfoHelper_r w p4 = None ->
  handlers e <> None ->
  Bmv2SwitchConnection_r w = Some e
  \/ (Bmv2SwitchConnection_r w = None /\ MasterArbitrationUpdate_r w = Some e)
  \/ (Bmv2SwitchConnection_r w = None /\ MasterArbitrationUpdate_r w = None
      /\ SetForwardingPipelineConfig_r w = Some e) ->
  result (main w p4 b ri) = Ret tt /\
  (exists tr, trace (main w p4 b ri) = tr ++ [EvShutdown]) /\
  writes (trace (main w p4 b ri)) = [].
Proof.
  intros EH Hh Hs. unfold result, trace, run.
  rewrite (main_after_helper _ _ _ _ EH).
  unfold try_body, Bmv2SwitchConnection, MasterArbitrationUpdate,
    SetForwardingPipelineConfig.
  destruct Hs as [H1 | [[H1 H2] | (H1 & H2 & H3)]];
    unfold bind at 1 2 3 4 5 6 7 8 9, try_except, emit, check;
    rewrite ?H1, ?H2, ?H3; simpl;
    destruct e; simpl in *; try done;
    (split; [reflexivity |]); (split; [| reflexivity]);
    match goal with |- exists tr, ?l = _ => by exists (removelast l) end.
Qed.

Example shutdown_follows_failed_connect :
  trace (main unreachable "p4info" "bmv2.json" "routes")
  = [EvP4InfoHelper "p4info"; EvBmv2SwitchConnection "s1" "127.0.0.1:50051" 0;
     EvPrintGrpcError (RpcError "UNAVAILABLE"); EvShutdown].
Proof. reflexivity. Qed.
